(** * ERSP integration: response classification and table extraction

    A shallow embedding of [src/ersp_integration.py]:
    - [_handle_response], the classifier of raw HTTP responses;
    - [_parse_table_rows_to_list], the table-to-records engine;
    - the markup-processing part of [fetch_comfort_keepers_report],
      [fetch_activity_report] and [fetch_calls_clocks_log].

    Python exceptions are values of [PyError] carried by [Result]; the
    parsed document is a tree of [PageElement]s with the navigation
    operations of the markup parser the code calls ([find], [find_all],
    [text], [select], [decompose]). *)

From Stdlib Require Import String Ascii List ZArith Lia Bool Arith.
From Stdlib Require Import DecimalString.
From Stdlib Require DecimalNat Finite.
Import ListNotations.

Open Scope list_scope.
Open Scope string_scope.

(** ** Python strings *)

Module PyStr.

(** Characters are code points below 256. *)
Definition LF : ascii := "010"%char.
Definition DQUOTE : ascii := "034"%char.

(** [str.isspace] on one code point below 256: TAB..CR, FS..US, SPACE,
    NEL and NBSP. *)
Definition isspace (c : ascii) : bool :=
  let n := nat_of_ascii c in
  (((9 <=? n) && (n <=? 13)) || ((28 <=? n) && (n <=? 32))
   || (n =? 133) || (n =? 160))%nat.

Fixpoint lstrip (s : string) : string :=
  match s with
  | EmptyString => EmptyString
  | String c s' => if isspace c then lstrip s' else s
  end.

Fixpoint rstrip (s : string) : string :=
  match s with
  | EmptyString => EmptyString
  | String c s' =>
      match rstrip s' with
      | EmptyString => if isspace c then EmptyString else String c EmptyString
      | r => String c r
      end
  end.

(** [s.strip()] *)
Definition strip (s : string) : string := rstrip (lstrip s).

(** Truth value of a string: non-empty. *)
Definition truthy (s : string) : bool :=
  match s with EmptyString => false | _ => true end.

(** [sub in s] *)
Fixpoint contains (sub s : string) : bool :=
  prefix sub s
  || match s with
     | EmptyString => false
     | String _ s' => contains sub s'
     end.

(** [s.split(sep)] for a one-character separator: never empty. *)
Fixpoint split (sep : ascii) (s : string) : list string :=
  match s with
  | EmptyString => [EmptyString]
  | String c s' =>
      if Ascii.eqb c sep then EmptyString :: split sep s'
      else match split sep s' with
           | [] => [String c EmptyString]
           | w :: ws => String c w :: ws
           end
  end.

(** [str(n)] for a non-negative integer and [str(z)] for an integer. *)
Definition of_nat (n : nat) : string :=
  NilZero.string_of_uint (Nat.to_uint n).
Definition of_Z (z : Z) : string :=
  NilZero.string_of_int (Z.to_int z).

(** [''.join(l)] *)
Definition join (l : list string) : string :=
  fold_right String.append EmptyString l.

End PyStr.

(** ** Exceptions and results *)

(** The exceptions the code can raise: the two built-in ones met in the
    extraction engine and the two integration errors of the classifier.
    [IntegrationAPIError] takes the integration name, a message and an
    optional status code, as at its two call sites. *)
Inductive PyError : Type :=
| ValueError
| AttributeError
| IntegrationAuthError (message : string)
| IntegrationAPIError (integration_name : string) (message : string)
                      (status_code : option Z).

(** The exception class of an error, the category a caller catches by. *)
Inductive ErrorClass : Type :=
| ValueErrorClass
| AttributeErrorClass
| IntegrationAuthErrorClass
| IntegrationAPIErrorClass.

Definition class_of (e : PyError) : ErrorClass :=
  match e with
  | ValueError => ValueErrorClass
  | AttributeError => AttributeErrorClass
  | IntegrationAuthError _ => IntegrationAuthErrorClass
  | IntegrationAPIError _ _ _ => IntegrationAPIErrorClass
  end.

Inductive Result (A : Type) : Type :=
| Ok (a : A)
| Raise (e : PyError).
Arguments Ok {A} a.
Arguments Raise {A} e.

Definition rbind {A B : Type} (m : Result A) (k : A -> Result B) : Result B :=
  match m with
  | Ok a => k a
  | Raise e => Raise e
  end.

Declare Scope py_scope.
Delimit Scope py_scope with py.
Notation "x <- m ;; k" := (rbind m (fun x => k))
  (at level 61, m at next level, right associativity) : py_scope.

(** [max(l)] over a sequence of integers: [ValueError] on an empty one. *)
Definition py_max (l : list nat) : Result nat :=
  match l with
  | [] => Raise ValueError
  | x :: l' => Ok (fold_left Nat.max l' x)
  end.

(** ** Dictionaries

    A Python [dict] with string keys: keys are unique, a new key goes last,
    assignment to a present key replaces its value in place. *)

Definition Dict (V : Type) : Type := list (string * V).

Fixpoint setitem {V : Type} (k : string) (v : V) (d : Dict V) : Dict V :=
  match d with
  | [] => [(k, v)]
  | (k', v') :: d' =>
      if String.eqb k k' then (k', v) :: d' else (k', v') :: setitem k v d'
  end.

Fixpoint getitem {V : Type} (k : string) (d : Dict V) : option V :=
  match d with
  | [] => None
  | (k', v') :: d' => if String.eqb k k' then Some v' else getitem k d'
  end.

Definition keys {V : Type} (d : Dict V) : list string := map fst d.

(** [enumerate(l)] *)
Definition enumerate {A : Type} (l : list A) : list (nat * A) :=
  combine (seq 0 (List.length l)) l.

(** ** The parsed document *)

(** A node of the parsed markup: a text node or a tag with its name, its
    attributes (a multi-valued attribute such as [class] holds its tokens)
    and its children. *)
#[warnings="-register-all"]
Inductive PageElement : Type :=
| NavigableString (s : string)
| Tag (name : string) (attrs : Dict (list string)) (contents : list PageElement).

Module Soup.

(** [tag.descendants]: every node below [e], in document order. *)
Fixpoint descendants (e : PageElement) : list PageElement :=
  match e with
  | NavigableString _ => []
  | Tag _ _ cs =>
      (fix go (l : list PageElement) : list PageElement :=
         match l with
         | [] => []
         | c :: l' => c :: (descendants c ++ go l')%list
         end) cs
  end.

Definition has_name (names : list string) (e : PageElement) : bool :=
  match e with
  | NavigableString _ => false
  | Tag n _ _ => existsb (String.eqb n) names
  end.

(** [tag.find_all(names)] *)
Definition find_all (names : list string) (e : PageElement) : list PageElement :=
  filter (has_name names) (descendants e).

(** [tag.find(name)] *)
Definition find (name : string) (e : PageElement) : option PageElement :=
  head (find_all [name] e).

(** [tag.text]: the text nodes at and below [e], joined. *)
Definition own_string (e : PageElement) : list string :=
  match e with
  | NavigableString s => [s]
  | Tag _ _ _ => []
  end.

Definition text (e : PageElement) : string :=
  PyStr.join (flat_map own_string (e :: descendants e)).

(** The CSS selectors the code uses: [tr], [table.functionLayout] and
    [table#callLogListing]. *)
Inductive Selector : Type :=
| ByName (name : string)
| ByNameClass (name cls : string)
| ByNameId (name id : string).

Definition attr (a : string) (e : PageElement) : list string :=
  match e with
  | NavigableString _ => []
  | Tag _ attrs _ => match getitem a attrs with Some v => v | None => [] end
  end.

Definition matches (sel : Selector) (e : PageElement) : bool :=
  match sel with
  | ByName n => has_name [n] e
  | ByNameClass n c => has_name [n] e && existsb (String.eqb c) (attr "class" e)
  | ByNameId n i => has_name [n] e && existsb (String.eqb i) (attr "id" e)
  end.

(** [tag.select(sel)] and [tag.select_one(sel)] *)
Definition select (sel : Selector) (e : PageElement) : list PageElement :=
  filter (matches sel) (descendants e).

Definition select_one (sel : Selector) (e : PageElement) : option PageElement :=
  head (select sel e).

(** [e.select_one(sel).decompose()]: the tree [e] once its first node
    matching [sel] has been taken out with everything below it; [None]
    when nothing below [e] matches. *)
Fixpoint decompose_first (sel : Selector) (e : PageElement) : option PageElement :=
  match e with
  | NavigableString _ => None
  | Tag n a cs =>
      match
        (fix go (l : list PageElement) : option (list PageElement) :=
           match l with
           | [] => None
           | c :: l' =>
               if matches sel c then Some l'
               else match decompose_first sel c with
                    | Some c' => Some (c' :: l')
                    | None =>
                        match go l' with
                        | Some l'' => Some (c :: l'')
                        | None => None
                        end
                    end
           end) cs
      with
      | Some cs' => Some (Tag n a cs')
      | None => None
      end
  end.

(** A node of a tree, by the indices of the children that lead to it from
    the root: what stands for the identity of a tag object while the tree
    is changed in place. *)
Definition Path : Type := list nat.

Fixpoint subtree (p : Path) (e : PageElement) : option PageElement :=
  match p with
  | [] => Some e
  | i :: p' =>
      match e with
      | NavigableString _ => None
      | Tag _ _ cs =>
          match nth_error cs i with
          | Some c => subtree p' c
          | None => None
          end
      end
  end.

(** The paths of the nodes [select] gives, in the same order. *)
Fixpoint select_paths (sel : Selector) (e : PageElement) : list Path :=
  match e with
  | NavigableString _ => []
  | Tag _ _ cs =>
      (fix go (i : nat) (l : list PageElement) : list Path :=
         match l with
         | [] => []
         | c :: l' =>
             ((if matches sel c then [[i]] else [])
              ++ map (cons i) (select_paths sel c) ++ go (S i) l')%list
         end) 0 cs
  end.

(** [node.decompose()] for the node at [p]: the tree without that node and
    what is below it; [None] when there is no such node below the root. *)
Fixpoint remove_at (p : Path) (e : PageElement) : option PageElement :=
  match p with
  | [] => None
  | i :: p' =>
      match e with
      | NavigableString _ => None
      | Tag n a cs =>
          match nth_error cs i with
          | None => None
          | Some c =>
              match p' with
              | [] => Some (Tag n a (firstn i cs ++ skipn (S i) cs)%list)
              | _ :: _ =>
                  match remove_at p' c with
                  | Some c' => Some (Tag n a (firstn i cs ++ c' :: skipn (S i) cs)%list)
                  | None => None
                  end
              end
          end
      end
  end.

(** Where the node that was at [p] is once the node at [r] has been
    decomposed: later siblings of the node at [r] move up by one, and a
    node at or below [r] is destroyed with it ([None]). *)
Fixpoint track (r p : Path) : option Path :=
  match r, p with
  | [], _ => None
  | _ :: _, [] => Some []
  | i :: r', j :: p' =>
      match r' with
      | [] =>
          if (j =? i)%nat then None
          else if (i <? j)%nat then Some (Nat.pred j :: p')
          else Some (j :: p')
      | _ :: _ =>
          if (j =? i)%nat then option_map (cons j) (track r' p')
          else Some (j :: p')
      end
  end.

End Soup.

(** ** The table extraction engine *)

Local Open Scope py_scope.

Definition empty_value : string := "".

(** [cell.text.strip()] *)
Definition stripped_text (cell : PageElement) : string :=
  PyStr.strip (Soup.text cell).

(** Lines 136-145: the headers read off the first row, [[]] when the table
    has no row. *)
Definition first_row_headers (table : PageElement) : list string :=
  match Soup.find "tr" table with
  | Some header_row =>
      let th_cells := Soup.find_all ["th"] header_row in
      match th_cells with
      | _ :: _ => map stripped_text th_cells
      | [] => map stripped_text (Soup.find_all ["td"] header_row)
      end
  | None => []
  end.

(** Lines 150-151: the generic column names. *)
Definition generic_headers (table : PageElement) : Result (list string) :=
  max_cols <- py_max (map (fun row => List.length (Soup.find_all ["td"; "th"] row))
                          (Soup.find_all ["tr"] table)) ;;
  Ok (map (fun i => "Column_" ++ PyStr.of_nat (i + 1)) (seq 0 max_cols)).

(** Lines 136-151: the headers before the line-break patch. *)
Definition derive_headers (table : PageElement) : Result (list string) :=
  match first_row_headers table with
  | [] => generic_headers table
  | headers => Ok headers
  end.

(** Lines 154-155: the patch for headers broken by a line feed. *)
Definition patch_headers (headers : list string) : list string :=
  if existsb (fun header => PyStr.contains (String PyStr.LF "") header) headers
  then map (fun header => hd "" (PyStr.split PyStr.LF header)) headers
  else headers.

(** Line 164: whether a row has a non-empty cell. *)
Definition has_data (cells : list PageElement) : bool :=
  existsb (fun cell => PyStr.truthy (stripped_text cell)) cells.

(** Lines 167-173: the dictionary of one row. *)
Definition row_record (headers : list string) (cells : list PageElement)
  : Dict string :=
  fold_left
    (fun row_data ih =>
       let '(i, header) := ih in
       if (i <? List.length cells)%nat then
         let cell_text := stripped_text (nth i cells (NavigableString "")) in
         setitem header (if PyStr.truthy cell_text then cell_text else empty_value)
                 row_data
       else setitem header empty_value row_data)
    (enumerate headers) [].

(** Lines 159-175: the loop over the rows after the first. *)
Fixpoint rows_loop (headers : list string) (include_blank_rows : bool)
    (trs : list PageElement) (rows : list (Dict string)) : list (Dict string) :=
  match trs with
  | [] => rows
  | tr :: trs' =>
      let cells := Soup.find_all ["td"] tr in
      if has_data cells || include_blank_rows
      then rows_loop headers include_blank_rows trs'
                     (rows ++ [row_record headers cells])%list
      else rows_loop headers include_blank_rows trs' rows
  end.

(** [_parse_table_rows_to_list(table, include_blank_rows)]; the argument is
    whatever [select_one] returned, [None] included, on which the first
    attribute access raises. *)
Definition _parse_table_rows_to_list (table : option PageElement)
    (include_blank_rows : bool) : Result (list (Dict string)) :=
  match table with
  | None => Raise AttributeError
  | Some table =>
      headers <- derive_headers table ;;
      let headers := patch_headers headers in
      Ok (rows_loop headers include_blank_rows
                    (tl (Soup.find_all ["tr"] table)) [])
  end.

(** Lines 283-293 of [fetch_activity_report]: the loop over the selected
    tables. The tables are tag objects of the one tree [soup], named by the
    paths they had when selected; [place] tells where such a tag is in the
    tree as [decompose()] has changed it since, [None] for a tag destroyed
    with a decomposed row, in which [select_one] finds nothing any more. *)
Fixpoint report_tables_loop (soup : PageElement)
    (place : Soup.Path -> option Soup.Path)
    (report_tables : list Soup.Path)
    (report_tables_processed : list (Dict (list (Dict string))))
  : Result (list (Dict (list (Dict string)))) :=
  match report_tables with
  | [] => Ok report_tables_processed
  | table :: rest =>
      match place table with
      | None => Raise AttributeError
      | Some table_path =>
          match Soup.subtree table_path soup with
          | None => Raise AttributeError
          | Some table =>
              match Soup.select_paths (Soup.ByName "tr") table with
              | [] => Raise AttributeError
              | first_row_path :: _ =>
                  match Soup.subtree first_row_path table with
                  | None => Raise AttributeError
                  | Some first_row =>
                      let this_title := PyStr.strip (Soup.text first_row) in
                      let decomposed := (table_path ++ first_row_path)%list in
                      match Soup.remove_at decomposed soup with
                      | None => Raise AttributeError
                      | Some soup =>
                          table_data <-
                            _parse_table_rows_to_list
                              (Soup.subtree table_path soup) false ;;
                          report_tables_loop soup
                            (fun t => match place t with
                                      | Some t => Soup.track decomposed t
                                      | None => None
                                      end)
                            rest
                            (report_tables_processed
                             ++ [setitem this_title table_data []])%list
                      end
                  end
              end
          end
      end
  end.

(** ** The response classifier and the report fetchers *)

(** A raw response. [text k] is what the [k]-th call of [response.text()]
    returns (calls counted from 0): a response that caches its body has a
    constant [text], a source exhausted by its first read does not. The
    body is one that decodes to text: a call that fails to decode raises
    an error of its own, which is not among the outcomes here. *)
Record ClientResponse : Type := {
  status : Z;
  reason : string;
  url : string;
  headers : list (string * string);
  text : nat -> string
}.

(** Computations that read the response body: the state is the number of
    calls of [response.text()] made so far. *)
Definition IO (A : Type) : Type := nat -> Result A * nat.

Definition ret {A : Type} (a : A) : IO A := fun n => (Ok a, n).
Definition raise {A : Type} (e : PyError) : IO A := fun n => (Raise e, n).
Definition bind {A B : Type} (m : IO A) (k : A -> IO B) : IO B :=
  fun n => match m n with
           | (Ok a, n') => k a n'
           | (Raise e, n') => (Raise e, n')
           end.
Definition lift {A : Type} (r : Result A) : IO A := fun n => (r, n).

(** [await response.text()] *)
Definition read_text (response : ClientResponse) : IO string :=
  fun n => (Ok (text response n), S n).

(** The outcome of a computation and the number of body reads it made. *)
Definition outcome {A : Type} (m : IO A) : Result A := fst (m 0).
Definition reads {A : Type} (m : IO A) : nat := snd (m 0).

Declare Scope io_scope.
Delimit Scope io_scope with io.
Notation "x <~ m ;; k" := (bind m (fun x => k))
  (at level 61, m at next level, right associativity) : io_scope.
Local Open Scope io_scope.

(** Line 41: the login page's main division. *)
Definition login_div : string :=
  "<div class=" ++ String PyStr.DQUOTE "login-main" ++ String PyStr.DQUOTE " ng-app="
  ++ String PyStr.DQUOTE "loginApp" ++ String PyStr.DQUOTE " ng-cloak>".

Section Integration.

(** [self.integration_name], set by the base class from the name given
    to it in [__init__]. *)
Variable integration_name : string.
(** How the transport's header mapping prints in an f-string. *)
Variable format_headers : list (string * string) -> string.
(** [BeautifulSoup(markup, "html.parser")] *)
Variable html_parser : string -> PageElement.

Definition _handle_response (response : ClientResponse) : IO string :=
  if (status response =? 200)%Z then
    r_text <~ read_text response ;;
    if PyStr.contains login_div r_text || PyStr.contains "loginApp" r_text
    then raise (IntegrationAuthError
                  ("ERSP Authentication failed for " ++ url response))
    else read_text response
  else
    let status_code := status response in
    if ((400 <=? status_code) && (status_code <? 500))%Z then
      let reason := reason response in
      body <~ read_text response ;;
      raise (IntegrationAuthError
               ("ERSP: " ++ PyStr.of_Z status_code ++ " - " ++ reason ++ " "
                ++ String PyStr.LF body))
    else if (status_code =? 302)%Z then
      body <~ read_text response ;;
      raise (IntegrationAPIError integration_name
               ("forced redirection caught to " ++ url response ++ ". "
                ++ String PyStr.LF body) None)
    else
      raise (IntegrationAPIError integration_name
               ("ersp: " ++ PyStr.of_Z status_code ++ " - "
                ++ format_headers (headers response))
               (Some status_code)).

(** [_make_request] once the transport has produced [response]. *)
Definition _make_request (response : ClientResponse) : IO string :=
  _handle_response response.

Definition fetch_comfort_keepers_report (response : ClientResponse)
  : IO (list (Dict string)) :=
  response <~ _make_request response ;;
  let soup := html_parser response in
  let report_table_element :=
    Soup.select_one (Soup.ByNameClass "table" "functionLayout") soup in
  lift (_parse_table_rows_to_list report_table_element false).

Definition fetch_activity_report (response : ClientResponse)
  : IO (list (Dict (list (Dict string)))) :=
  response <~ _make_request response ;;
  let soup := html_parser response in
  let report_tables :=
    Soup.select_paths (Soup.ByNameClass "table" "functionLayout") soup in
  lift (report_tables_loop soup Some report_tables []).

Definition fetch_calls_clocks_log (response : ClientResponse)
  : IO (list (Dict string)) :=
  response <~ _make_request response ;;
  let soup := html_parser response in
  let unparsed_table :=
    Soup.select_one (Soup.ByNameId "table" "callLogListing") soup in
  lift (_parse_table_rows_to_list unparsed_table false).

End Integration.

(** ** Dates of the report parameters *)

Module PyDate.

(** A [date], by its proleptic Gregorian ordinal: day 1 is 0001-01-01 and
    [MAXORD] is 9999-12-31. *)
Definition date : Type := Z.
Definition MAXORD : Z := 3652059.

Definition valid (d : date) : Prop := (1 <= d <= MAXORD)%Z.

(** [d.weekday()]: Monday is 0, Sunday is 6. *)
Definition weekday (d : date) : Z := ((d + 6) mod 7)%Z.

(** [d - timedelta(days=n)]: [None] stands for the [OverflowError] of a
    result outside the range of dates. *)
Definition sub_days (d : date) (n : Z) : option date :=
  let o := (d - n)%Z in
  if ((1 <=? o) && (o <=? MAXORD))%Z then Some o else None.

(** The fields of [datetime.now()] the code reads. *)
Record datetime : Type := { year : Z; month : Z }.

End PyDate.

Section Dates.

(** [d.strftime(format)] *)
Variable strftime : PyDate.date -> string -> string.

(** [_get_date_and_week_start()], with [date.today()] given. *)
Definition _get_date_and_week_start (current_date : PyDate.date)
  : option (string * string) :=
  let formatted_date := strftime current_date "%m/%d/%Y" in
  let days_to_monday := PyDate.weekday current_date in
  match PyDate.sub_days current_date days_to_monday with
  | None => None
  | Some first_day_of_week =>
      let first_day_of_week_formatted := strftime first_day_of_week "%m/%d/%Y" in
      Some (formatted_date, first_day_of_week_formatted)
  end.

End Dates.

(** [_get_current_year_month_quarter()], with [datetime.now()] given. *)
Definition _get_current_year_month_quarter (current_date : PyDate.datetime)
  : Z * Z * Z :=
  let current_year := PyDate.year current_date in
  let current_month := PyDate.month current_date in
  let current_quarter :=
    if existsb (Z.eqb current_month) [1; 2; 3]%Z then 1%Z
    else if existsb (Z.eqb current_month) [4; 5; 6]%Z then 2%Z
    else if existsb (Z.eqb current_month) [7; 8; 9]%Z then 3%Z
    else 4%Z in
  (current_year, current_month, current_quarter).

(** ** Sample markup *)

Module Sample.

Definition td (s : string) : PageElement := Tag "td" [] [NavigableString s].
Definition th (s : string) : PageElement := Tag "th" [] [NavigableString s].
Definition tr (cells : list PageElement) : PageElement := Tag "tr" [] cells.
Definition table (rows : list PageElement) : PageElement := Tag "table" [] rows.
Definition report_table (rows : list PageElement) : PageElement :=
  Tag "table" [("class", ["functionLayout"])] rows.
Definition document (body : list PageElement) : PageElement :=
  Tag "[document]" [] body.



(** A table without any row. *)
Definition no_rows : PageElement := table [].

(** A report table holding its title row only. *)
Definition title_only : PageElement := report_table [tr [td "Jane Doe"]].

(** A report table: title row, header row, one data row. *)
Definition jane (hours : string) : PageElement :=
  report_table [tr [td " Jane Doe "]; tr [th "Day"; th "Hours"];
                tr [td "Mon"; td hours]].

(** A response whose body reads the same at every call. *)
Definition response (st : Z) (body : string) : ClientResponse :=
  {| status := st; reason := ""; url := "https://ck964.ersp.biz/index.cfm";
     headers := []; text := fun _ => body |}.

Definition no_headers (h : list (string * string)) : string := "{}".

End Sample.

(** ** Vocabulary of the properties *)

(** The trimmed text of the cell at position [i] of a row, the empty
    string past the last cell. *)
Definition cell_value (cells : list PageElement) (i : nat) : string :=
  match nth_error cells i with
  | Some cell => stripped_text cell
  | None => ""
  end.

(** What one row adds to the output. *)
Definition emit (headers : list string) (include_blank_rows : bool)
    (tr : PageElement) : list (Dict string) :=
  let cells := Soup.find_all ["td"] tr in
  if has_data cells || include_blank_rows then [row_record headers cells] else [].

(** The rows after the first. *)
Definition data_rows (table : PageElement) : list PageElement :=
  tl (Soup.find_all ["tr"] table).

(** The headers a table's records are keyed by: lines 136-155. *)
Definition table_headers (table : PageElement) : Result (list string) :=
  rbind (derive_headers table) (fun headers => Ok (patch_headers headers)).

(** The records of a list of rows. *)
Definition records (headers : list string) (include_blank_rows : bool)
    (trs : list PageElement) : list (Dict string) :=
  rows_loop headers include_blank_rows trs [].

(** The login-page test of lines 41-42. *)
Definition looks_like_login_page (r_text : string) : bool :=
  PyStr.contains login_div r_text || PyStr.contains "loginApp" r_text.

Definition Substring (sub s : string) : Prop :=
  exists pre post, s = pre ++ sub ++ post.

(** The text before the first line feed: [header.split('\n')[0]]. *)
Definition first_line (s : string) : string := hd "" (PyStr.split PyStr.LF s).

Definition has_LF (s : string) : bool := PyStr.contains (String PyStr.LF "") s.

(** [Column_1 .. Column_n] *)
Definition column_names (n : nat) : list string :=
  map (fun i => "Column_" ++ PyStr.of_nat (i + 1)) (seq 0 n).

(** The nodes at and below the nodes of a list, in document order. *)
Definition descendants_of (cs : list PageElement) : list PageElement :=
  flat_map (fun c => c :: Soup.descendants c) cs.

(** [Soup.decompose_first] on the children of a tag. *)
Definition decompose_children (sel : Soup.Selector)
  : list PageElement -> option (list PageElement) :=
  fix go (l : list PageElement) : option (list PageElement) :=
    match l with
    | [] => None
    | c :: l' =>
        if Soup.matches sel c then Some l'
        else match Soup.decompose_first sel c with
             | Some c' => Some (c' :: l')
             | None =>
                 match go l' with
                 | Some l'' => Some (c :: l'')
                 | None => None
                 end
             end
    end.

(** Induction on a node with the property at hand for all its children. *)
Fixpoint PageElement_forest_ind (P : PageElement -> Prop)
    (Hstring : forall s, P (NavigableString s))
    (Htag : forall n a cs, Forall P cs -> P (Tag n a cs))
    (e : PageElement) : P e :=
  match e with
  | NavigableString s => Hstring s
  | Tag n a cs =>
      Htag n a cs
        ((fix go (l : list PageElement) : Forall P l :=
            match l with
            | [] => Forall_nil P
            | c :: l' => Forall_cons c (PageElement_forest_ind P Hstring Htag c) (go l')
            end) cs)
  end.



(** A group of rows inside a wrapper tag such as [tbody]. *)
Definition wrap (g : string * Dict (list string) * list PageElement) : PageElement :=
  Tag (fst (fst g)) (snd (fst g)) (snd g).

(** The loop of the activity report on tables that are trees of their own,
    sharing nothing: what [separate_tables_loop] comes to when no selected
    table lies inside another. *)
Fixpoint separate_tables_loop (report_tables : list PageElement)
    (report_tables_processed : list (Dict (list (Dict string))))
  : Result (list (Dict (list (Dict string)))) :=
  match report_tables with
  | [] => Ok report_tables_processed
  | table :: rest =>
      match Soup.select_one (Soup.ByName "tr") table with
      | None => Raise AttributeError
      | Some first_row =>
          let this_title := PyStr.strip (Soup.text first_row) in
          match Soup.decompose_first (Soup.ByName "tr") table with
          | None => Raise AttributeError
          | Some table =>
              table_data <- _parse_table_rows_to_list (Some table) false ;;
              separate_tables_loop rest
                (report_tables_processed ++ [setitem this_title table_data []])%list
          end
      end
  end.

(** The section of a table of the activity report. *)
Definition section_of (table : PageElement) (section : Dict (list (Dict string)))
  : Prop :=
  exists first_row rest table_data,
    Soup.select_one (Soup.ByName "tr") table = Some first_row
    /\ Soup.decompose_first (Soup.ByName "tr") table = Some rest
    /\ _parse_table_rows_to_list (Some rest) false = Ok table_data
    /\ section = [(PyStr.strip (Soup.text first_row), table_data)].

(** A table with a row after its first row and outside it. *)
Definition has_row_after_title (table : PageElement) : Prop :=
  exists first_row,
    Soup.find "tr" table = Some first_row
    /\ S (List.length (Soup.find_all ["tr"] first_row))
       < List.length (Soup.find_all ["tr"] table).

(** A stand-in for [strftime] that prints the ordinal of the date. *)
Definition sample_strftime (d : PyDate.date) (format : string) : string :=
  PyStr.of_Z d.


(** A report table inside the title row of another, and a report table
    before the first row of the one around it. *)
Definition sample_table_in_title_row : PageElement :=
  Sample.document
    [Sample.report_table
       [Sample.tr [Sample.td "T";
                   Tag "td" []
                     [Sample.report_table
                        [Sample.tr [Sample.td "I"]; Sample.tr [Sample.th "h"]]]];
        Sample.tr [Sample.th "H"]; Sample.tr [Sample.td "x"]]].

Definition sample_table_before_first_row : PageElement :=
  Sample.document
    [Sample.report_table
       [Sample.report_table
          [Sample.tr [Sample.td "T"]; Sample.tr [Sample.td "H"];
           Sample.tr [Sample.td "v"]];
        Sample.tr [Sample.td "w"]]].

(** A table whose first row has no cell. *)
Definition sample_no_header_cells : PageElement :=
  Sample.table [Sample.tr []; Sample.tr [Sample.td "a"; Sample.td " b "]].

(** [Soup.select_paths] on the children of a tag, the first of them being
    the child of index [i]. *)
Definition paths_from (sel : Soup.Selector)
  : nat -> list PageElement -> list Soup.Path :=
  fix go (i : nat) (l : list PageElement) : list Soup.Path :=
    match l with
    | [] => []
    | c :: l' =>
        ((if Soup.matches sel c then [[i]] else [])
         ++ map (cons i) (Soup.select_paths sel c) ++ go (S i) l')%list
    end.

(** Two paths neither of which leads through the node of the other. *)
Fixpoint apart (p p' : Soup.Path) : bool :=
  match p, p' with
  | i :: q, j :: q' => if (i =? j)%nat then apart q q' else true
  | _, _ => false
  end.

(** A page none of whose report tables lies inside another. *)
Definition no_table_inside_another (soup : PageElement) : Prop :=
  forall table,
    In table (Soup.select (Soup.ByNameClass "table" "functionLayout") soup) ->
    Soup.select (Soup.ByNameClass "table" "functionLayout") table = [].

(** * Properties *)

(** ** Strings *)

Lemma prefix_app (sub s : string) :
  prefix sub s = true <-> exists post, s = sub ++ post.
Proof.
  revert s; induction sub as [|a sub IH]; intros s.
  - split; [intros _; now exists s | intros _; now destruct s].
  - destruct s as [|b s]; simpl.
    + split; [discriminate | intros [post H]; discriminate].
    + destruct (ascii_dec a b) as [->|Hab].
      * rewrite IH. split; intros [post H]; exists post.
        -- now rewrite H.
        -- now injection H.
      * split; [discriminate|]. intros [post H]. injection H as H1 _.
        now elim Hab.
Qed.

Lemma contains_eq (sub s : string) :
  PyStr.contains sub s =
  prefix sub s || match s with
                  | EmptyString => false
                  | String _ s' => PyStr.contains sub s'
                  end.
Proof. now destruct s. Qed.

Lemma contains_spec (sub s : string) :
  PyStr.contains sub s = true <-> Substring sub s.
Proof.
  split.
  - induction s as [|a s IH]; rewrite contains_eq, orb_true_iff; intros [H|H].
    + apply prefix_app in H as [post H]. now exists "", post.
    + discriminate.
    + apply prefix_app in H as [post H]. now exists "", post.
    + destruct (IH H) as (pre & post & ->). now exists (String a pre), post.
  - intros (pre & post & ->). induction pre as [|a pre IH].
    + rewrite contains_eq. apply orb_true_iff. left.
      apply prefix_app. now exists post.
    + rewrite contains_eq. apply orb_true_iff. now right.
Qed.

Lemma contains_char_cons (c a : ascii) (s : string) :
  PyStr.contains (String c "") (String a s) =
  Ascii.eqb a c || PyStr.contains (String c "") s.
Proof.
  rewrite contains_eq. f_equal. simpl.
  destruct (ascii_dec c a) as [<-|H].
  - rewrite Ascii.eqb_refl. now destruct s.
  - symmetry. apply Ascii.eqb_neq. congruence.
Qed.

Lemma has_LF_cons (a : ascii) (s : string) :
  has_LF (String a s) = Ascii.eqb a PyStr.LF || has_LF s.
Proof. exact (contains_char_cons PyStr.LF a s). Qed.

Lemma split_not_nil (c : ascii) (s : string) : PyStr.split c s <> [].
Proof.
  induction s as [|a s IH]; simpl; [discriminate|].
  destruct (Ascii.eqb a c); [discriminate|].
  destruct (PyStr.split c s); [contradiction|discriminate].
Qed.

Lemma first_line_cons (a : ascii) (s : string) :
  first_line (String a s) =
  if Ascii.eqb a PyStr.LF then "" else String a (first_line s).
Proof.
  unfold first_line; simpl. destruct (Ascii.eqb a PyStr.LF); [reflexivity|].
  pose proof (split_not_nil PyStr.LF s) as H.
  destruct (PyStr.split PyStr.LF s); [contradiction|reflexivity].
Qed.

Lemma first_line_no_LF (s : string) : has_LF (first_line s) = false.
Proof.
  induction s as [|a s IH]; [reflexivity|].
  rewrite first_line_cons. destruct (Ascii.eqb a PyStr.LF) eqn:E; [reflexivity|].
  now rewrite has_LF_cons, E, IH.
Qed.

Lemma first_line_id (s : string) : has_LF s = false -> first_line s = s.
Proof.
  induction s as [|a s IH]; [reflexivity|].
  rewrite has_LF_cons, first_line_cons. intros H.
  apply orb_false_iff in H as [-> H]. now rewrite IH.
Qed.

Lemma first_line_split (s : string) :
  has_LF s = true -> exists rest, s = first_line s ++ String PyStr.LF rest.
Proof.
  induction s as [|a s IH]; [discriminate|].
  rewrite has_LF_cons, first_line_cons.
  destruct (Ascii.eqb a PyStr.LF) eqn:E; simpl; intros H.
  - apply Ascii.eqb_eq in E as ->. now exists s.
  - destruct (IH H) as [rest Hr]. exists rest. now rewrite <- Hr.
Qed.

(** ** The response classifier *)

Section ClassifierFacts.

Variable integration_name : string.
Variable format_headers : list (string * string) -> string.

Local Abbreviation classify := (_handle_response integration_name format_headers).

Lemma login_page_spec (r_text : string) :
  looks_like_login_page r_text = true <->
  Substring login_div r_text \/ Substring "loginApp" r_text.
Proof.
  unfold looks_like_login_page.
  now rewrite orb_true_iff, !contains_spec.
Qed.

(** The run of the classifier, branch by branch. *)
Lemma classify_200_login (response : ClientResponse) :
  status response = 200%Z ->
  looks_like_login_page (text response 0) = true ->
  classify response 0 =
  (Raise (IntegrationAuthError
            ("ERSP Authentication failed for " ++ url response)), 1).
Proof.
  intros Hs Hm. unfold classify, _handle_response, bind, read_text, raise.
  rewrite Hs; simpl. unfold looks_like_login_page in Hm. now rewrite Hm.
Qed.

Lemma classify_200_report (response : ClientResponse) :
  status response = 200%Z ->
  looks_like_login_page (text response 0) = false ->
  classify response 0 = (Ok (text response 1), 2).
Proof.
  intros Hs Hm. unfold classify, _handle_response, bind, read_text, raise.
  rewrite Hs; simpl. unfold looks_like_login_page in Hm. now rewrite Hm.
Qed.

Lemma classify_4xx (response : ClientResponse) :
  (400 <= status response < 500)%Z ->
  classify response 0 =
  (Raise (IntegrationAuthError
            ("ERSP: " ++ PyStr.of_Z (status response) ++ " - "
             ++ reason response ++ " "
             ++ String PyStr.LF (text response 0))), 1).
Proof.
  intros Hs. unfold classify, _handle_response, bind, read_text, raise.
  destruct (Z.eqb_spec (status response) 200); [lia|].
  destruct (Z.leb_spec 400 (status response)); [|lia].
  destruct (Z.ltb_spec (status response) 500); [|lia].
  reflexivity.
Qed.

Lemma classify_302 (response : ClientResponse) :
  status response = 302%Z ->
  classify response 0 =
  (Raise (IntegrationAPIError integration_name
            ("forced redirection caught to " ++ url response ++ ". "
             ++ String PyStr.LF (text response 0)) None), 1).
Proof.
  intros Hs. unfold classify, _handle_response, bind, read_text, raise.
  now rewrite Hs.
Qed.

Lemma classify_other (response : ClientResponse) :
  status response <> 200%Z ->
  ~ (400 <= status response < 500)%Z ->
  status response <> 302%Z ->
  classify response 0 =
  (Raise (IntegrationAPIError integration_name
            ("ersp: " ++ PyStr.of_Z (status response) ++ " - "
             ++ format_headers (headers response))
            (Some (status response))), 0).
Proof.
  intros H2 H4 H3. unfold classify, _handle_response, bind, read_text, raise.
  destruct (Z.eqb_spec (status response) 200); [contradiction|].
  destruct (Z.eqb_spec (status response) 302); [contradiction|].
  destruct (Z.leb_spec 400 (status response));
    destruct (Z.ltb_spec (status response) 500); simpl;
    try reflexivity; lia.
Qed.

(** The five branches cover every response. *)
Lemma classify_cases (response : ClientResponse) :
  (status response = 200%Z /\ looks_like_login_page (text response 0) = true)
  \/ (status response = 200%Z /\ looks_like_login_page (text response 0) = false)
  \/ (400 <= status response < 500)%Z
  \/ status response = 302%Z
  \/ (status response <> 200%Z /\ ~ (400 <= status response < 500)%Z
      /\ status response <> 302%Z).
Proof.
  destruct (Z.eq_dec (status response) 200) as [E|E].
  - destruct (looks_like_login_page (text response 0)); auto.
  - destruct (Z.eq_dec (status response) 302); [auto|].
    destruct (Z_le_dec 400 (status response));
      destruct (Z_lt_dec (status response) 500); auto 6;
      right; right; right; right; repeat split; auto; lia.
Qed.

(** C1. Status 200 with a login-page marker in the body (the login
    division or the string loginApp anywhere): the classifier raises the
    authentication error and returns no body, whatever the status says. *)
Theorem C1_login_marker_is_auth_failure (response : ClientResponse) :
  status response = 200%Z ->
  Substring login_div (text response 0)
  \/ Substring "loginApp" (text response 0) ->
  outcome (classify response) =
    Raise (IntegrationAuthError
             ("ERSP Authentication failed for " ++ url response))
  /\ forall body, outcome (classify response) <> Ok body.
Proof.
  intros Hs Hm. apply login_page_spec in Hm.
  unfold outcome. rewrite (classify_200_login response Hs Hm). simpl.
  split; [reflexivity | discriminate].
Qed.

(** C2 (amended). Status 302: the classifier raises an
    [IntegrationAPIError] built from the response URL and the body, with
    no status code. Every other status outside 200 and 4xx raises the same
    class, with the status code and the headers; a 4xx status raises the
    authentication error, a different class. *)
Theorem C2_redirect_failure (response other : ClientResponse) :
  status response = 302%Z ->
  outcome (classify response) =
    Raise (IntegrationAPIError integration_name
             ("forced redirection caught to " ++ url response ++ ". "
              ++ String PyStr.LF (text response 0)) None)
  /\ (status other <> 200%Z -> ~ (400 <= status other < 500)%Z ->
      status other <> 302%Z ->
      outcome (classify other) =
        Raise (IntegrationAPIError integration_name
                 ("ersp: " ++ PyStr.of_Z (status other) ++ " - "
                  ++ format_headers (headers other))
                 (Some (status other))))
  /\ ((400 <= status other < 500)%Z ->
      exists e, outcome (classify other) = Raise e
                /\ class_of e = IntegrationAuthErrorClass).
Proof.
  intros Hs. unfold outcome. repeat split.
  - now rewrite (classify_302 response Hs).
  - intros H2 H4 H3. now rewrite (classify_other other H2 H4 H3).
  - intros H4. rewrite (classify_4xx other H4). simpl. eauto.
Qed.

(** C9 (amended). The classifier calls [response.text()] at most twice.
    A failure is raised after at most one call, so its message holds the
    only text read. A success takes two calls, one for the login test and
    one for the value returned: the body returned is the second text,
    which is the tested one when the response reads the same each time. *)
Theorem C9_body_reads (response : ClientResponse) :
  reads (classify response) <= 2
  /\ (forall e, outcome (classify response) = Raise e ->
      reads (classify response) <= 1)
  /\ (forall body, outcome (classify response) = Ok body ->
      reads (classify response) = 2
      /\ body = text response 1
      /\ looks_like_login_page (text response 0) = false)
  /\ (text response 1 = text response 0 ->
      forall body, outcome (classify response) = Ok body ->
      body = text response 0).
Proof.
  unfold reads, outcome.
  destruct (classify_cases response)
    as [[Hs Hm]|[[Hs Hm]|[H4|[H3|(H2 & H4 & H3)]]]].
  - rewrite (classify_200_login response Hs Hm); simpl.
    repeat split; try lia; discriminate.
  - rewrite (classify_200_report response Hs Hm); simpl.
    repeat split; try lia; try discriminate; try congruence.
  - rewrite (classify_4xx response H4); simpl.
    repeat split; try lia; discriminate.
  - rewrite (classify_302 response H3); simpl.
    repeat split; try lia; discriminate.
  - rewrite (classify_other response H2 H4 H3); simpl.
    repeat split; try lia; discriminate.
Qed.

End ClassifierFacts.

(** ** Dictionaries *)

Lemma keys_setitem {V : Type} (k : string) (v : V) (d : Dict V) (x : string) :
  In x (keys (setitem k v d)) <-> x = k \/ In x (keys d).
Proof.
  induction d as [|[k' v'] d IH]; simpl.
  - intuition congruence.
  - destruct (String.eqb_spec k k') as [->|Hk]; simpl.
    + intuition congruence.
    + unfold keys in IH. rewrite IH. intuition congruence.
Qed.

Lemma getitem_setitem_eq {V : Type} (k : string) (v : V) (d : Dict V) :
  getitem k (setitem k v d) = Some v.
Proof.
  induction d as [|[k' v'] d IH]; simpl.
  - now rewrite String.eqb_refl.
  - destruct (String.eqb_spec k k') as [->|Hk]; simpl.
    + now rewrite String.eqb_refl.
    + destruct (String.eqb_spec k k'); [contradiction|exact IH].
Qed.

Lemma getitem_setitem_neq {V : Type} (k k' : string) (v : V) (d : Dict V) :
  k <> k' -> getitem k' (setitem k v d) = getitem k' d.
Proof.
  intros Hk. induction d as [|[k0 v0] d IH]; simpl.
  - destruct (String.eqb_spec k' k); [congruence|reflexivity].
  - destruct (String.eqb_spec k k0) as [->|Hk0]; simpl.
    + destruct (String.eqb_spec k' k0); [congruence|reflexivity].
    + now rewrite IH.
Qed.


(** ** The record of one row *)

(** The value the loop of lines 167-173 writes at header position [i]. *)
Lemma row_record_fold (headers : list string) (cells : list PageElement) :
  row_record headers cells =
  fold_left (fun row_data ih => setitem (snd ih) (cell_value cells (fst ih)) row_data)
            (enumerate headers) [].
Proof.
  unfold row_record. generalize (@nil (string * string)).
  induction (enumerate headers) as [|[i h] l IH]; intros d; simpl; [reflexivity|].
  rewrite <- IH. f_equal. unfold cell_value.
  destruct (Nat.ltb_spec i (List.length cells)) as [Hi|Hi].
  - destruct (nth_error cells i) as [c|] eqn:E.
    + rewrite (nth_error_nth _ _ _ E).
      now destruct (stripped_text c).
    + apply nth_error_None in E. lia.
  - apply nth_error_None in Hi. now rewrite Hi.
Qed.

Section RowFold.

Variable cells : list PageElement.

Local Abbreviation write :=
  (fun (row_data : Dict string) (ih : nat * string) =>
     setitem (snd ih) (cell_value cells (fst ih)) row_data).

Lemma fold_keys (hs : list string) (n : nat) (d : Dict string) (x : string) :
  In x (keys (fold_left write (combine (seq n (List.length hs)) hs) d))
  <-> In x hs \/ In x (keys d).
Proof.
  revert n d; induction hs as [|h hs IH]; intros n d; simpl.
  - tauto.
  - rewrite IH, keys_setitem. simpl. intuition congruence.
Qed.


Lemma fold_get_other (hs : list string) (n : nat) (d : Dict string) (h : string) :
  ~ In h hs ->
  getitem h (fold_left write (combine (seq n (List.length hs)) hs) d)
  = getitem h d.
Proof.
  revert n d; induction hs as [|h0 hs IH]; intros n d Hn; simpl; [reflexivity|].
  rewrite IH by (intros H; apply Hn; now right).
  apply getitem_setitem_neq. intros ->. apply Hn. now left.
Qed.

Lemma fold_get_last (hs : list string) (n : nat) (d : Dict string)
      (i : nat) (h : string) :
  nth_error hs i = Some h ->
  (forall j, i < j -> nth_error hs j <> Some h) ->
  getitem h (fold_left write (combine (seq n (List.length hs)) hs) d)
  = Some (cell_value cells (n + i)).
Proof.
  revert n d i; induction hs as [|h0 hs IH]; intros n d i Hi Hlast.
  - now destruct i.
  - destruct i as [|i]; simpl in Hi |- *.
    + injection Hi as ->. rewrite fold_get_other.
      * rewrite Nat.add_0_r. apply getitem_setitem_eq.
      * intros Hin. apply In_nth_error in Hin as [j Hj].
        apply (Hlast (S j)); [lia | exact Hj].
    + rewrite (IH (S n) _ i Hi).
      * f_equal. f_equal. lia.
      * intros j Hj. apply (Hlast (S j)). lia.
Qed.

End RowFold.

Lemma row_record_keys (headers : list string) (cells : list PageElement) (k : string) :
  In k (keys (row_record headers cells)) <-> In k headers.
Proof.
  rewrite row_record_fold. unfold enumerate. rewrite fold_keys. simpl. tauto.
Qed.


Lemma row_record_get (headers : list string) (cells : list PageElement)
      (i : nat) (h : string) :
  nth_error headers i = Some h ->
  (forall j, i < j -> nth_error headers j <> Some h) ->
  getitem h (row_record headers cells) = Some (cell_value cells i).
Proof.
  intros Hi Hlast. rewrite row_record_fold. unfold enumerate.
  now rewrite (fold_get_last cells headers 0 [] i h Hi Hlast).
Qed.

(** ** The rows loop *)

Lemma rows_loop_emit (headers : list string) (include_blank_rows : bool)
      (trs : list PageElement) (rows : list (Dict string)) :
  rows_loop headers include_blank_rows trs rows =
  (rows ++ flat_map (emit headers include_blank_rows) trs)%list.
Proof.
  revert rows; induction trs as [|tr trs IH]; intros rows; simpl.
  - now rewrite app_nil_r.
  - unfold emit at 1.
    destruct (has_data (Soup.find_all ["td"] tr) || include_blank_rows);
      rewrite IH; [now rewrite <- app_assoc | reflexivity].
Qed.

Lemma rows_loop_app (headers : list string) (include_blank_rows : bool)
      (pre post : list PageElement) :
  rows_loop headers include_blank_rows (pre ++ post) [] =
  (rows_loop headers include_blank_rows pre []
   ++ rows_loop headers include_blank_rows post [])%list.
Proof. now rewrite !rows_loop_emit, flat_map_app. Qed.



Lemma rows_loop_In (headers : list string) (include_blank_rows : bool)
      (trs : list PageElement) (r : Dict string) :
  In r (rows_loop headers include_blank_rows trs []) ->
  exists tr, In tr trs /\ r = row_record headers (Soup.find_all ["td"] tr).
Proof.
  rewrite rows_loop_emit. simpl. rewrite in_flat_map.
  intros (tr & Htr & Hr). exists tr. split; [exact Htr|].
  unfold emit in Hr.
  destruct (has_data (Soup.find_all ["td"] tr) || include_blank_rows);
    simpl in Hr; intuition.
Qed.

(** ** Header derivation *)

Lemma fold_max_ge (l : list nat) (x : nat) :
  x <= fold_left Nat.max l x /\ forall y, In y l -> y <= fold_left Nat.max l x.
Proof.
  revert x; induction l as [|a l IH]; intros x; simpl.
  - split; [lia | intros y []].
  - destruct (IH (Nat.max x a)) as [H1 H2]. split; [lia|].
    intros y [<-|Hy]; [lia | now apply H2].
Qed.

Lemma fold_max_in (l : list nat) (x : nat) :
  fold_left Nat.max l x = x \/ In (fold_left Nat.max l x) l.
Proof.
  revert x; induction l as [|a l IH]; intros x; simpl; [now left|].
  destruct (IH (Nat.max x a)) as [H|H]; [|now right; right].
  rewrite H. destruct (Nat.max_spec x a) as [[_ ->]|[_ ->]]; auto.
Qed.

Lemma py_max_spec (l : list nat) :
  l <> [] ->
  exists m, py_max l = Ok m /\ In m l /\ forall y, In y l -> y <= m.
Proof.
  destruct l as [|x l]; [congruence|]. intros _.
  exists (fold_left Nat.max l x). simpl. split; [reflexivity|].
  destruct (fold_max_ge l x) as [H1 H2]. split.
  - destruct (fold_max_in l x) as [->|H]; auto.
  - intros y [<-|Hy]; auto.
Qed.

Lemma generic_headers_spec (table : PageElement) :
  Soup.find_all ["tr"] table <> [] ->
  exists N,
    generic_headers table = Ok (column_names N)
    /\ (forall row, In row (Soup.find_all ["tr"] table) ->
        List.length (Soup.find_all ["td"; "th"] row) <= N)
    /\ (exists row, In row (Soup.find_all ["tr"] table)
                    /\ List.length (Soup.find_all ["td"; "th"] row) = N).
Proof.
  intros Hrows. unfold generic_headers.
  set (counts := map _ (Soup.find_all ["tr"] table)).
  destruct (py_max_spec counts) as (N & -> & Hin & Hmax).
  - subst counts. now destruct (Soup.find_all ["tr"] table).
  - exists N. simpl. split; [reflexivity|]. split.
    + intros row Hrow. apply Hmax. subst counts.
      apply in_map_iff. now exists row.
    + subst counts. apply in_map_iff in Hin as (row & Hrow & Hin).
      now exists row.
Qed.

Lemma derive_headers_total (table : PageElement) :
  Soup.find_all ["tr"] table <> [] ->
  exists headers, derive_headers table = Ok headers.
Proof.
  intros Hrows. unfold derive_headers.
  destruct (first_row_headers table) as [|h hs]; [|eauto].
  destruct (generic_headers_spec table Hrows) as (N & -> & _). eauto.
Qed.

Lemma derive_headers_no_rows (table : PageElement) :
  Soup.find_all ["tr"] table = [] -> derive_headers table = Raise ValueError.
Proof.
  intros Hrows. unfold derive_headers, first_row_headers, Soup.find.
  rewrite Hrows. simpl. unfold generic_headers. now rewrite Hrows.
Qed.

Lemma table_headers_total (table : PageElement) :
  Soup.find_all ["tr"] table <> [] ->
  exists headers, table_headers table = Ok headers.
Proof.
  intros Hrows. unfold table_headers.
  destruct (derive_headers_total table Hrows) as [hs ->]. simpl. eauto.
Qed.

Lemma parse_with_headers (table : PageElement) (headers : list string)
      (include_blank_rows : bool) :
  table_headers table = Ok headers ->
  _parse_table_rows_to_list (Some table) include_blank_rows =
  Ok (records headers include_blank_rows (data_rows table)).
Proof.
  unfold table_headers, _parse_table_rows_to_list.
  destruct (derive_headers table); simpl; [|discriminate].
  now intros [= <-].
Qed.

Lemma parse_inv (table : PageElement) (include_blank_rows : bool)
      (rows : list (Dict string)) :
  _parse_table_rows_to_list (Some table) include_blank_rows = Ok rows ->
  exists headers,
    table_headers table = Ok headers
    /\ rows = records headers include_blank_rows (data_rows table).
Proof.
  unfold table_headers, _parse_table_rows_to_list.
  destruct (derive_headers table) as [hs|]; simpl; [|discriminate].
  intros [= <-]. now exists (patch_headers hs).
Qed.

Lemma data_rows_not_nil (table : PageElement) :
  data_rows table <> [] -> Soup.find_all ["tr"] table <> [].
Proof. unfold data_rows. now destruct (Soup.find_all ["tr"] table). Qed.

(** ** Blank rows *)

Lemma last_occurrence (hs : list string) (h : string) :
  In h hs ->
  exists i, nth_error hs i = Some h /\ forall j, i < j -> nth_error hs j <> Some h.
Proof.
  induction hs as [|h0 hs IH]; [intros []|]. intros Hin.
  destruct (in_dec string_dec h hs) as [Hl|Hl].
  - destruct (IH Hl) as (i & Hi & Hlast). exists (S i). split; [exact Hi|].
    intros [|j] Hj; [lia|]. simpl. apply Hlast. lia.
  - destruct Hin as [->|Hin]; [|contradiction].
    exists 0. split; [reflexivity|].
    intros [|j] Hj; [lia|]. simpl. intros E. apply Hl.
    now apply nth_error_In in E.
Qed.

Lemma blank_cells_value (cells : list PageElement) (i : nat) :
  (forall cell, In cell cells -> stripped_text cell = "") ->
  cell_value cells i = "".
Proof.
  intros Hb. unfold cell_value.
  destruct (nth_error cells i) as [c|] eqn:E; [|reflexivity].
  apply Hb. now apply nth_error_In in E.
Qed.

Lemma blank_cells_no_data (cells : list PageElement) :
  (forall cell, In cell cells -> stripped_text cell = "") ->
  has_data cells = false.
Proof.
  intros Hb. unfold has_data.
  induction cells as [|c cells IH]; simpl; [reflexivity|].
  rewrite (Hb c) by now left. simpl. apply IH. intros c' Hc'. apply Hb. now right.
Qed.

Lemma blank_record_get (headers : list string) (cells : list PageElement)
      (h : string) :
  (forall cell, In cell cells -> stripped_text cell = "") ->
  In h headers ->
  getitem h (row_record headers cells) = Some "".
Proof.
  intros Hb Hin. destruct (last_occurrence headers h Hin) as (i & Hi & Hlast).
  rewrite (row_record_get headers cells i h Hi Hlast).
  now rewrite blank_cells_value.
Qed.

(** What the engine does with a row without data, among the rows before
    and after it. *)
Lemma blank_row_outcome (table : PageElement) (pre post : list PageElement)
      (tr : PageElement) :
  data_rows table = (pre ++ tr :: post)%list ->
  (forall cell, In cell (Soup.find_all ["td"] tr) -> stripped_text cell = "") ->
  exists headers,
    table_headers table = Ok headers
    /\ _parse_table_rows_to_list (Some table) false =
         Ok (records headers false pre ++ records headers false post)%list
    /\ exists blank,
         _parse_table_rows_to_list (Some table) true =
           Ok (records headers true pre ++ blank :: records headers true post)%list
         /\ (forall h, In h (keys blank) <-> In h headers)
         /\ (forall h, In h headers -> getitem h blank = Some "").
Proof.
  intros Hrows Hb.
  destruct (table_headers_total table) as [hs Hhs].
  { apply data_rows_not_nil. rewrite Hrows. now destruct pre. }
  exists hs. split; [exact Hhs|].
  rewrite !(parse_with_headers table hs _ Hhs), Hrows. unfold records.
  rewrite !rows_loop_app. split.
  - simpl. now rewrite (blank_cells_no_data _ Hb).
  - exists (row_record hs (Soup.find_all ["td"] tr)). split; [|split].
    + simpl. rewrite orb_true_r.
      now rewrite (rows_loop_emit hs true post [_]), (rows_loop_emit hs true post []).
    + intros h. apply row_record_keys.
    + intros h Hh. now apply blank_record_get.
Qed.

(** C6. A row after the first whose data cells all trim to the empty
    string: without the blank-row option the output is that of the rows
    before it followed by that of the rows after it; with the option, one
    record stands between them, every header mapped to the empty string. *)
Theorem C6_blank_rows_excluded_unless_requested
    (table : PageElement) (pre post : list PageElement) (tr : PageElement) :
  data_rows table = (pre ++ tr :: post)%list ->
  (forall cell, In cell (Soup.find_all ["td"] tr) ->
                PyStr.strip (Soup.text cell) = "") ->
  exists headers,
    table_headers table = Ok headers
    /\ _parse_table_rows_to_list (Some table) false =
         Ok (records headers false pre ++ records headers false post)%list
    /\ exists blank,
         _parse_table_rows_to_list (Some table) true =
           Ok (records headers true pre ++ blank :: records headers true post)%list
         /\ (forall h, In h (keys blank) <-> In h headers)
         /\ (forall h, In h headers -> getitem h blank = Some "").
Proof. exact (blank_row_outcome table pre post tr). Qed.




(** ** The header patch *)

Lemma existsb_has_LF_first_line (headers : list string) :
  existsb (fun header => PyStr.contains (String PyStr.LF "") header)
          (map first_line headers) = false.
Proof.
  induction headers as [|h hs IH]; simpl; [reflexivity|].
  rewrite IH, orb_false_r. apply first_line_no_LF.
Qed.

Lemma patch_headers_cases (headers : list string) :
  (exists h, In h headers /\ has_LF h = true)
  /\ patch_headers headers = map first_line headers
  \/ (forall h, In h headers -> has_LF h = false)
     /\ patch_headers headers = headers.
Proof.
  unfold patch_headers.
  destruct (existsb _ headers) eqn:E.
  - left. apply existsb_exists in E. auto.
  - right. split; [|reflexivity]. intros h Hh.
    destruct (has_LF h) eqn:Eh; [|reflexivity].
    assert (Ht : existsb (fun header => PyStr.contains (String PyStr.LF "") header)
                         headers = true)
      by (apply existsb_exists; now exists h).
    congruence.
Qed.

(** C8. When some header holds a line feed, every header of the set is cut
    down to the text before its first line feed, which leaves a header
    without line feed as it is; patching a patched set changes nothing, as
    cutting a cut header does not. *)
Theorem C8_line_break_patch_idempotent (headers : list string) :
  ((exists h, In h headers /\ has_LF h = true) ->
   patch_headers headers = map first_line headers
   /\ (forall h, In h headers -> has_LF h = true ->
       exists rest, h = first_line h ++ String PyStr.LF rest)
   /\ (forall h, In h headers -> has_LF h = false -> first_line h = h)
   /\ (forall h, In h (patch_headers headers) -> has_LF h = false))
  /\ patch_headers (patch_headers headers) = patch_headers headers
  /\ (forall h, first_line (first_line h) = first_line h).
Proof.
  split; [|split].
  - intros (h0 & Hin0 & Hlf0).
    destruct (patch_headers_cases headers) as [[_ ->]|[Hno _]].
    + split; [reflexivity|]. split; [|split].
      * intros h _ Hlf. now apply first_line_split.
      * intros h _ Hlf. now apply first_line_id.
      * intros h Hh. apply in_map_iff in Hh as (h' & <- & _).
        apply first_line_no_LF.
    + rewrite (Hno h0 Hin0) in Hlf0. discriminate.
  - destruct (patch_headers_cases headers) as [[_ E]|[_ E]]; rewrite E.
    + unfold patch_headers. now rewrite existsb_has_LF_first_line.
    + exact E.
  - intros h. apply first_line_id, first_line_no_LF.
Qed.

(** ** Header derivation *)

(** C5. A table without any row has neither header cells nor data cells
    in a first row, and the generic names are what is left to name its
    columns; there the derivation raises [ValueError], and the extraction
    with it. *)
Theorem C5_no_row_table_raises :
  Soup.find "tr" Sample.no_rows = None
  /\ Soup.find_all ["tr"] Sample.no_rows = []
  /\ first_row_headers Sample.no_rows = []
  /\ derive_headers Sample.no_rows = Raise ValueError
  /\ _parse_table_rows_to_list (Some Sample.no_rows) false = Raise ValueError.
Proof. repeat split. Qed.


(** ** Records *)



(** ** Errors of the engine *)



(** ** Taking a node out of the tree *)

Lemma descendants_Tag (n : string) (a : Dict (list string)) (cs : list PageElement) :
  Soup.descendants (Tag n a cs) = descendants_of cs.
Proof.
  simpl. induction cs as [|c cs IH]; simpl; [reflexivity|]. now rewrite IH.
Qed.

Lemma decompose_first_Tag (sel : Soup.Selector) (n : string)
      (a : Dict (list string)) (cs : list PageElement) :
  Soup.decompose_first sel (Tag n a cs) =
  option_map (Tag n a) (decompose_children sel cs).
Proof.
  simpl. fold (decompose_children sel).
  now destruct (decompose_children sel cs).
Qed.

Lemma decompose_first_matches (sel : Soup.Selector) (e e' : PageElement) :
  Soup.decompose_first sel e = Some e' ->
  Soup.matches sel e' = Soup.matches sel e.
Proof.
  destruct e as [s|n a cs]; [discriminate|].
  rewrite decompose_first_Tag.
  destruct (decompose_children sel cs); simpl; [|discriminate].
  intros [= <-]. now destruct sel.
Qed.

(** Taking out the first match of [sel] below [e] leaves, of the matches
    below [e], those that come after it and are not below it. *)
Lemma decompose_first_select (sel : Soup.Selector) (e : PageElement) :
  match Soup.decompose_first sel e with
  | None => Soup.select sel e = []
  | Some e' =>
      exists node,
        Soup.select sel e =
        node :: (Soup.select sel node ++ Soup.select sel e')%list
  end.
Proof.
  induction e as [s|n a cs IH] using PageElement_forest_ind; [reflexivity|].
  rewrite decompose_first_Tag. unfold Soup.select.
  rewrite (descendants_Tag n a cs).
  assert (Hforest :
    match decompose_children sel cs with
    | None => filter (Soup.matches sel) (descendants_of cs) = []
    | Some cs' =>
        exists node,
          filter (Soup.matches sel) (descendants_of cs) =
          node :: (filter (Soup.matches sel) (Soup.descendants node)
                    ++ filter (Soup.matches sel) (descendants_of cs'))%list
    end).
  { induction cs as [|c cs IHcs]; [reflexivity|].
    inversion IH as [|? ? Hc Hcs]; subst. specialize (IHcs Hcs).
    cbn [decompose_children descendants_of flat_map] in *.
    fold (descendants_of cs) in *. fold (decompose_children sel) in *.
    cbn [app filter]. rewrite filter_app.
    destruct (Soup.matches sel c) eqn:Em.
    - now exists c.
    - destruct (Soup.decompose_first sel c) as [c'|] eqn:Ec.
      + destruct Hc as [node Hnode]. exists node.
        unfold Soup.select in Hnode. rewrite Hnode.
        cbn [descendants_of flat_map app filter].
        rewrite (decompose_first_matches sel c c' Ec), Em.
        fold (descendants_of cs). rewrite filter_app.
        cbn [app]. now rewrite <- app_assoc.
      + unfold Soup.select in Hc. rewrite Hc. cbn [app].
        destruct (decompose_children sel cs) as [cs'|].
        * destruct IHcs as [node Hnode]. exists node.
          cbn [descendants_of flat_map app filter]. rewrite Em.
          fold (descendants_of cs'). now rewrite filter_app, Hc.
        * exact IHcs. }
  destruct (decompose_children sel cs) as [cs'|]; cbn [option_map];
    [|exact Hforest].
  destruct Hforest as [node Hnode]. exists node.
  now rewrite (descendants_Tag n a cs').
Qed.

(** On a table: the row taken out is the one [select_one] gives, and the
    rows left are those after it that are not inside it. *)
Lemma decompose_first_row (table : PageElement) :
  match Soup.select_one (Soup.ByName "tr") table with
  | None => Soup.decompose_first (Soup.ByName "tr") table = None
  | Some first_row =>
      exists rest,
        Soup.decompose_first (Soup.ByName "tr") table = Some rest
        /\ Soup.find_all ["tr"] table =
           first_row :: (Soup.find_all ["tr"] first_row ++ Soup.find_all ["tr"] rest)%list
  end.
Proof.
  pose proof (decompose_first_select (Soup.ByName "tr") table) as H.
  unfold Soup.select_one.
  destruct (Soup.decompose_first (Soup.ByName "tr") table) as [rest|].
  - destruct H as [node H]. rewrite H. simpl. exists rest.
    split; [reflexivity|]. exact H.
  - now rewrite H.
Qed.

(** A title row without rows of its own, then a second row: once the
    title row is taken out, the second row is the table's first. *)
Lemma second_row_becomes_first (table title second : PageElement)
      (more : list PageElement) :
  Soup.find_all ["tr"] table = title :: second :: more ->
  Soup.find_all ["tr"] title = [] ->
  exists rest,
    Soup.select_one (Soup.ByName "tr") table = Some title
    /\ Soup.decompose_first (Soup.ByName "tr") table = Some rest
    /\ Soup.find_all ["tr"] rest = second :: more.
Proof.
  intros Hrows Hflat. pose proof (decompose_first_row table) as H.
  assert (Hone : Soup.select_one (Soup.ByName "tr") table = Some title).
  { unfold Soup.select_one. change (Soup.select (Soup.ByName "tr") table)
      with (Soup.find_all ["tr"] table). now rewrite Hrows. }
  rewrite Hone in H. destruct H as (rest & Hrest & Hall).
  exists rest. split; [exact Hone|]. split; [exact Hrest|].
  rewrite Hrows, Hflat in Hall. simpl in Hall. congruence.
Qed.

(** ** The sections of the activity report *)

(** With a title row and a further row in every selected table, the loop
    gives one section per table, in the order of the tables: the trimmed
    text of the title row keyed to the records of the rest. *)
Lemma separate_tables_loop_sections (report_tables : list PageElement)
      (processed : list (Dict (list (Dict string)))) :
  (forall table, In table report_tables ->
     exists first_row rest,
       Soup.select_one (Soup.ByName "tr") table = Some first_row
       /\ Soup.decompose_first (Soup.ByName "tr") table = Some rest
       /\ Soup.find_all ["tr"] rest <> []) ->
  exists sections,
    separate_tables_loop report_tables processed = Ok (processed ++ sections)%list
    /\ List.length sections = List.length report_tables
    /\ forall i table, nth_error report_tables i = Some table ->
       exists first_row rest table_data,
         Soup.select_one (Soup.ByName "tr") table = Some first_row
         /\ Soup.decompose_first (Soup.ByName "tr") table = Some rest
         /\ _parse_table_rows_to_list (Some rest) false = Ok table_data
         /\ nth_error sections i =
            Some [(PyStr.strip (Soup.text first_row), table_data)].
Proof.
  revert processed; induction report_tables as [|table tables IH];
    intros processed Hall.
  - exists []. simpl. rewrite app_nil_r. repeat split. now intros [|i].
  - destruct (Hall table (or_introl eq_refl)) as (fr & rest & Hfr & Hrest & Hrows).
    destruct (table_headers_total rest Hrows) as [hs Hhs].
    pose proof (parse_with_headers rest hs false Hhs) as Hp.
    destruct (IH (processed ++ [[(PyStr.strip (Soup.text fr),
                                  records hs false (data_rows rest))]])%list)
      as (secs & Hloop & Hlen & Hnth).
    { intros t Ht. apply Hall. now right. }
    exists ([(PyStr.strip (Soup.text fr), records hs false (data_rows rest))] :: secs).
    split; [|split].
    + cbn [separate_tables_loop]. rewrite Hfr. cbv zeta. rewrite Hrest, Hp.
      cbn [rbind setitem]. etransitivity; [exact Hloop|].
      now rewrite <- app_assoc.
    + simpl. now rewrite Hlen.
    + intros [|i] t Ht; simpl in Ht.
      * injection Ht as <-. exists fr, rest, (records hs false (data_rows rest)).
        repeat split; assumption.
      * now apply Hnth.
Qed.

(** Two tables with the same title give two sections. *)
Example same_title_sections_kept_apart :
  outcome (fetch_activity_report "ersp" Sample.no_headers
             (fun _ => Sample.document [Sample.jane "8"; Sample.jane "9"])
             (Sample.response 200 "<html>report</html>"))
  = Ok [[("Jane Doe", [[("Day", "Mon"); ("Hours", "8")]])];
        [("Jane Doe", [[("Day", "Mon"); ("Hours", "9")]])]].
Proof. reflexivity. Qed.

(** C7. The report is to give one section per selected table; on a page
    whose selected table holds its title row only, the fetch raises
    [ValueError] and gives no section. *)
Theorem C7_title_only_table_raises :
  Soup.select (Soup.ByNameClass "table" "functionLayout")
              (Sample.document [Sample.title_only]) = [Sample.title_only]
  /\ Soup.select_one (Soup.ByName "tr") Sample.title_only
     = Some (Sample.tr [Sample.td "Jane Doe"])
  /\ Soup.decompose_first (Soup.ByName "tr") Sample.title_only
     = Some (Sample.report_table [])
  /\ outcome (fetch_activity_report "ersp" Sample.no_headers
                (fun _ => Sample.document [Sample.title_only])
                (Sample.response 200 "<html>report</html>"))
     = Raise ValueError.
Proof. repeat split. Qed.

(** ** Counterexamples on the classifier *)

(** A 302 and a 500 raise errors of one and the same class. *)
Lemma C2_redirect_class_counterexample :
  exists e302 e500,
    outcome (_handle_response "ersp" Sample.no_headers (Sample.response 302 "moved"))
    = Raise e302
    /\ outcome (_handle_response "ersp" Sample.no_headers (Sample.response 500 "down"))
       = Raise e500
    /\ class_of e302 = class_of e500.
Proof. do 2 eexists. repeat split. Qed.

(** A report page answered with status 200 is read twice. *)
Lemma C9_second_read_counterexample :
  outcome (_handle_response "ersp" Sample.no_headers
             (Sample.response 200 "<html>report</html>"))
  = Ok "<html>report</html>"
  /\ reads (_handle_response "ersp" Sample.no_headers
              (Sample.response 200 "<html>report</html>")) = 2.
Proof. split; reflexivity. Qed.

(** ** The theorems at work on sample inputs *)

Lemma C1_login_marker_witness :
  status (Sample.response 200 "<html>loginApp</html>") = 200%Z
  /\ outcome (_handle_response "ersp" Sample.no_headers
                (Sample.response 200 "<html>loginApp</html>"))
     = Raise (IntegrationAuthError
                "ERSP Authentication failed for https://ck964.ersp.biz/index.cfm").
Proof.
  split; [reflexivity|].
  apply (C1_login_marker_is_auth_failure "ersp" Sample.no_headers
           (Sample.response 200 "<html>loginApp</html>")).
  - reflexivity.
  - right. exists "<html>", "</html>". reflexivity.
Defined.

Lemma C2_redirect_witness :
  status (Sample.response 302 "moved") = 302%Z
  /\ outcome (_handle_response "ersp" Sample.no_headers (Sample.response 302 "moved"))
     = Raise (IntegrationAPIError "ersp"
                ("forced redirection caught to https://ck964.ersp.biz/index.cfm. "
                 ++ String PyStr.LF "moved") None)
  /\ outcome (_handle_response "ersp" Sample.no_headers (Sample.response 500 "down"))
     = Raise (IntegrationAPIError "ersp" "ersp: 500 - {}" (Some 500%Z)).
Proof.
  split; [reflexivity|].
  destruct (C2_redirect_failure "ersp" Sample.no_headers
              (Sample.response 302 "moved") (Sample.response 500 "down")
              eq_refl) as (H302 & H500 & _).
  split; [exact H302|].
  apply H500; simpl; lia.
Defined.

Lemma C9_body_reads_witness :
  reads (_handle_response "ersp" Sample.no_headers (Sample.response 200 "report")) = 2
  /\ "report" = text (Sample.response 200 "report") 0.
Proof.
  destruct (C9_body_reads "ersp" Sample.no_headers (Sample.response 200 "report"))
    as (_ & _ & Hok & Hsame).
  split.
  - exact (proj1 (Hok "report" eq_refl)).
  - exact (Hsame eq_refl "report" eq_refl).
Defined.




Lemma C6_blank_rows_witness :
  exists headers,
    table_headers (Sample.table [Sample.tr [Sample.th "A"; Sample.th "B"];
                                 Sample.tr [Sample.td "  "; Sample.td ""]])
    = Ok headers
    /\ _parse_table_rows_to_list
         (Some (Sample.table [Sample.tr [Sample.th "A"; Sample.th "B"];
                              Sample.tr [Sample.td "  "; Sample.td ""]])) false
       = Ok [].
Proof.
  destruct (C6_blank_rows_excluded_unless_requested
              (Sample.table [Sample.tr [Sample.th "A"; Sample.th "B"];
                             Sample.tr [Sample.td "  "; Sample.td ""]])
              [] [] (Sample.tr [Sample.td "  "; Sample.td ""]))
    as (headers & Hh & Hp & _).
  - reflexivity.
  - intros cell [<-|[<-|[]]]; reflexivity.
  - exists headers. split; [exact Hh | exact Hp].
Defined.

Lemma C8_line_break_patch_witness :
  patch_headers [String "N" (String "a" (String PyStr.LF "me")); "Age"]
  = map first_line [String "N" (String "a" (String PyStr.LF "me")); "Age"].
Proof.
  destruct (C8_line_break_patch_idempotent
              [String "N" (String "a" (String PyStr.LF "me")); "Age"])
    as [Hcut _].
  apply Hcut. exists (String "N" (String "a" (String PyStr.LF "me"))).
  split; [now left | reflexivity].
Defined.



(** ** Tags of one tree, by their paths *)

Lemma select_paths_Tag (sel : Soup.Selector) (n : string)
      (a : Dict (list string)) (cs : list PageElement) :
  Soup.select_paths sel (Tag n a cs) = paths_from sel 0 cs.
Proof. reflexivity. Qed.

Lemma paths_from_cons (sel : Soup.Selector) (i : nat) (c : PageElement)
      (l : list PageElement) :
  paths_from sel i (c :: l) =
  ((if Soup.matches sel c then [[i]] else [])
   ++ map (cons i) (Soup.select_paths sel c) ++ paths_from sel (S i) l)%list.
Proof. reflexivity. Qed.

Lemma nth_error_middle {A : Type} (pre l : list A) (c : A) :
  nth_error (pre ++ c :: l) (List.length pre) = Some c.
Proof.
  rewrite nth_error_app2 by lia. now rewrite Nat.sub_diag.
Qed.

Lemma firstn_middle {A : Type} (pre l : list A) :
  firstn (List.length pre) (pre ++ l) = pre.
Proof.
  rewrite firstn_app, Nat.sub_diag, firstn_all. simpl. apply app_nil_r.
Qed.

Lemma skipn_middle {A : Type} (pre l : list A) (c : A) :
  skipn (S (List.length pre)) (pre ++ c :: l) = l.
Proof.
  induction pre as [|x pre IH]; [reflexivity | exact IH].
Qed.

Lemma subtree_cons (i : nat) (p : Soup.Path) (n : string)
      (a : Dict (list string)) (cs : list PageElement) (c : PageElement) :
  nth_error cs i = Some c ->
  Soup.subtree (i :: p) (Tag n a cs) = Soup.subtree p c.
Proof. intros H. simpl. now rewrite H. Qed.

Lemma paths_from_head (sel : Soup.Selector) (l : list PageElement) (i : nat)
      (p : Soup.Path) :
  In p (paths_from sel i l) -> exists j q, p = j :: q /\ i <= j.
Proof.
  revert i; induction l as [|c l IH]; intros i; [intros []|].
  rewrite paths_from_cons, !in_app_iff. intros [H|[H|H]].
  - destruct (Soup.matches sel c); [|destruct H].
    destruct H as [<-|[]]. now exists i, [].
  - apply in_map_iff in H as (q & <- & _). now exists i, q.
  - destruct (IH _ H) as (j & q & -> & Hj). exists j, q. split; [reflexivity|lia].
Qed.

Lemma select_paths_not_nil (sel : Soup.Selector) (e : PageElement) (p : Soup.Path) :
  In p (Soup.select_paths sel e) -> p <> [].
Proof.
  destruct e as [s|n a cs]; [intros []|].
  rewrite select_paths_Tag. intros H.
  destruct (paths_from_head _ _ _ _ H) as (j & q & -> & _). discriminate.
Qed.

(** The paths selected lead to the nodes selected, one by one. *)
Lemma select_paths_subtree (sel : Soup.Selector) (e : PageElement) :
  map (fun p => Soup.subtree p e) (Soup.select_paths sel e)
  = map Some (Soup.select sel e).
Proof.
  induction e as [s|n a cs IH] using PageElement_forest_ind; [reflexivity|].
  rewrite select_paths_Tag. unfold Soup.select. rewrite (descendants_Tag n a cs).
  change cs with ([] ++ cs)%list at 1.
  change 0 with (@List.length PageElement []).
  generalize (@nil PageElement) as pre.
  induction cs as [|c cs IHcs]; intros pre; [reflexivity|].
  inversion IH as [|? ? Hc Hcs]; subst.
  rewrite paths_from_cons, !map_app.
  cbn [descendants_of flat_map app filter]. fold (descendants_of cs).
  rewrite filter_app, map_map.
  assert (Hi : nth_error (pre ++ c :: cs) (List.length pre) = Some c)
    by apply nth_error_middle.
  rewrite (map_ext
             (fun q => Soup.subtree (List.length pre :: q) (Tag n a (pre ++ c :: cs)))
             (fun q : Soup.Path => Soup.subtree q c))
    by (intros q; now apply subtree_cons).
  unfold Soup.Path in *. rewrite Hc. unfold Soup.select.
  specialize (IHcs Hcs (pre ++ [c])%list).
  rewrite <- app_assoc, length_app, Nat.add_1_r in IHcs. cbn [app] in IHcs.
  rewrite IHcs.
  destruct (Soup.matches sel c); cbn [map app].
  - rewrite (subtree_cons _ [] _ _ _ _ Hi). cbn [Soup.subtree].
    now rewrite map_app.
  - now rewrite map_app.
Qed.

Lemma select_paths_nil (sel : Soup.Selector) (e : PageElement) :
  Soup.select_paths sel e = [] <-> Soup.select sel e = [].
Proof.
  pose proof (select_paths_subtree sel e) as H.
  split; intros E; rewrite E in H.
  - now destruct (Soup.select sel e).
  - now destruct (Soup.select_paths sel e).
Qed.

Lemma select_paths_first (sel : Soup.Selector) (e : PageElement)
      (q : Soup.Path) (rest : list Soup.Path) :
  Soup.select_paths sel e = q :: rest ->
  exists first, Soup.select_one sel e = Some first
                /\ Soup.subtree q e = Some first.
Proof.
  intros E. pose proof (select_paths_subtree sel e) as H. rewrite E in H.
  unfold Soup.select_one.
  destruct (Soup.select sel e) as [|f l]; [discriminate|].
  injection H as H _. now exists f.
Qed.

(** Decomposing the node at the first selected path is
    [Soup.decompose_first]. *)
Lemma remove_first_path (sel : Soup.Selector) (e : PageElement) :
  match Soup.select_paths sel e with
  | [] => Soup.decompose_first sel e = None
  | q :: _ =>
      exists e', Soup.decompose_first sel e = Some e'
                 /\ Soup.remove_at q e = Some e'
  end.
Proof.
  induction e as [s|n a cs IH] using PageElement_forest_ind; [reflexivity|].
  rewrite select_paths_Tag, decompose_first_Tag.
  assert (Hforest : forall pre,
    match paths_from sel (List.length pre) cs with
    | [] => decompose_children sel cs = None
    | q :: _ =>
        exists cs', decompose_children sel cs = Some cs'
                    /\ Soup.remove_at q (Tag n a (pre ++ cs))
                       = Some (Tag n a (pre ++ cs'))
    end).
  { induction cs as [|c cs IHcs]; intros pre; [reflexivity|].
    inversion IH as [|? ? Hc Hcs]; subst. specialize (IHcs Hcs).
    rewrite paths_from_cons. cbn [decompose_children].
    fold (decompose_children sel).
    assert (Hi : nth_error (pre ++ c :: cs) (List.length pre) = Some c)
      by apply nth_error_middle.
    destruct (Soup.matches sel c) eqn:Em.
    - cbn [app]. exists cs. split; [reflexivity|].
      cbn [Soup.remove_at]. rewrite Hi.
      now rewrite firstn_middle, skipn_middle.
    - cbn [app]. destruct (Soup.select_paths sel c) as [|q1 ps] eqn:Eps.
      + rewrite Hc. cbn [map app].
        specialize (IHcs (pre ++ [c])%list).
        rewrite length_app, Nat.add_1_r, <- app_assoc in IHcs. cbn [app] in IHcs.
        destruct (paths_from sel (S (List.length pre)) cs) as [|q qs].
        * now rewrite IHcs.
        * destruct IHcs as (cs' & -> & Hrm). exists (c :: cs').
          split; [reflexivity|]. rewrite Hrm. now rewrite <- app_assoc.
      + destruct Hc as (c' & -> & Hrm). cbn [map app].
        exists (c' :: cs). split; [reflexivity|].
        assert (Hq1 : q1 <> []).
        { apply (select_paths_not_nil sel c). rewrite Eps. now left. }
        destruct q1 as [|j q1]; [congruence|].
        cbn [Soup.remove_at]. rewrite Hi.
        cbn [Soup.remove_at] in Hrm. rewrite Hrm.
        now rewrite firstn_middle, skipn_middle. }
  specialize (Hforest []). cbn [List.length app] in Hforest.
  destruct (paths_from sel 0 cs) as [|q qs].
  - now rewrite Hforest.
  - destruct Hforest as (cs' & -> & Hrm). exists (Tag n a cs'). now split.
Qed.

Lemma nth_error_replaced {A : Type} (cs : list A) (i : nat) (c c' : A) :
  nth_error cs i = Some c ->
  nth_error (firstn i cs ++ c' :: skipn (S i) cs) i = Some c'.
Proof.
  revert i; induction cs as [|x cs IH]; intros [|i] H; try discriminate.
  - reflexivity.
  - simpl in H |- *. now apply IH.
Qed.

Lemma nth_error_not_replaced {A : Type} (cs : list A) (i j : nat) (c c' : A) :
  nth_error cs i = Some c -> j <> i ->
  nth_error (firstn i cs ++ c' :: skipn (S i) cs) j = nth_error cs j.
Proof.
  revert i j; induction cs as [|x cs IH]; intros [|i] [|j] H Hj;
    try discriminate; try congruence; try reflexivity.
  simpl in H |- *. apply (IH i j H). congruence.
Qed.

Lemma apart_cons (i j : nat) (q q' : Soup.Path) :
  apart (i :: q) (j :: q') = true -> i <> j \/ (i = j /\ apart q q' = true).
Proof.
  simpl. destruct (Nat.eqb_spec i j); [right|left]; auto.
Qed.

(** Decomposing a node below the node at [p] changes the tree at [p] only:
    what is at a path apart from [p] is what it was. *)
Lemma remove_at_below (p q : Soup.Path) (soup tag tag' : PageElement) :
  Soup.subtree p soup = Some tag ->
  Soup.remove_at q tag = Some tag' ->
  exists soup',
    Soup.remove_at (p ++ q)%list soup = Some soup'
    /\ Soup.subtree p soup' = Some tag'
    /\ forall p', apart p p' = true -> Soup.subtree p' soup' = Soup.subtree p' soup.
Proof.
  revert soup; induction p as [|i p IH]; intros soup Hsub Hrm.
  - injection Hsub as ->. exists tag'. repeat split; [exact Hrm|].
    intros p' H. discriminate.
  - destruct soup as [s|n a cs]; [discriminate|]. cbn [Soup.subtree] in Hsub.
    destruct (nth_error cs i) as [c|] eqn:Hi; [|discriminate].
    destruct (IH c Hsub Hrm) as (c' & Hrm' & Hsub' & Hother).
    exists (Tag n a (firstn i cs ++ c' :: skipn (S i) cs)).
    assert (Hpq : (p ++ q)%list <> []).
    { destruct q; [destruct tag; discriminate|]. now destruct p. }
    split; [|split].
    + cbn [app Soup.remove_at]. rewrite Hi.
      destruct (p ++ q)%list as [|j r] eqn:E; [congruence|]. now rewrite Hrm'.
    + cbn [Soup.subtree]. now rewrite (nth_error_replaced cs i c c' Hi).
    + intros [|j p'] Hap; [discriminate|].
      apply apart_cons in Hap as [Hij|[<- Hap]]; cbn [Soup.subtree].
      * rewrite (nth_error_not_replaced cs i j c c' Hi) by congruence. reflexivity.
      * rewrite (nth_error_replaced cs i c c' Hi), Hi. now apply Hother.
Qed.

Lemma track_apart (p q p' : Soup.Path) :
  q <> [] -> apart p p' = true -> Soup.track (p ++ q)%list p' = Some p'.
Proof.
  intros Hq. revert p'; induction p as [|i p IH]; intros p' Hap; [discriminate|].
  destruct p' as [|j p']; [discriminate|].
  assert (Hpq : (p ++ q)%list <> []) by (destruct p; [exact Hq | discriminate]).
  cbn [app Soup.track]. destruct (p ++ q)%list as [|k r] eqn:E; [congruence|].
  apply apart_cons in Hap as [Hij|[<- Hap]].
  - destruct (Nat.eqb_spec j i); [congruence | reflexivity].
  - rewrite Nat.eqb_refl, (IH p' Hap). reflexivity.
Qed.

(** While the tables still to come are apart from one another in the
    tree, the loop on the one tree does what the loop on separate trees
    does. *)
Lemma report_tables_loop_separate (report_tables : list Soup.Path) :
  forall (soup : PageElement) (place : Soup.Path -> option Soup.Path)
         (current : list Soup.Path) (tables : list PageElement)
         (processed : list (Dict (list (Dict string)))),
    Forall2 (fun t c => place t = Some c) report_tables current ->
    Forall2 (fun c tag => Soup.subtree c soup = Some tag) current tables ->
    ForallOrdPairs (fun c c' => apart c c' = true) current ->
    report_tables_loop soup place report_tables processed
    = separate_tables_loop tables processed.
Proof.
  induction report_tables as [|t ts IH];
    intros soup place current tables processed Hplace Hsub Hap.
  - inversion Hplace; subst. inversion Hsub; subst. reflexivity.
  - inversion Hplace as [|? c ? cs Hc Hcs]; subst.
    inversion Hsub as [|? tag ? tags Htag Htags]; subst.
    inversion Hap as [|? ? Hfirst Hrest]; subst.
    cbn [report_tables_loop separate_tables_loop]. rewrite Hc, Htag.
    pose proof (remove_first_path (Soup.ByName "tr") tag) as Hrm.
    destruct (Soup.select_paths (Soup.ByName "tr") tag) as [|q qs] eqn:Eq.
    + apply select_paths_nil in Eq. unfold Soup.select_one. now rewrite Eq.
    + destruct (select_paths_first _ _ _ _ Eq) as (first & -> & ->).
      destruct Hrm as (tag' & -> & Hrm). cbv zeta.
      destruct (remove_at_below c q soup tag tag' Htag Hrm)
        as (soup' & -> & -> & Hother).
      destruct (_parse_table_rows_to_list (Some tag') false) as [data|e];
        [|reflexivity].
      cbn [rbind]. apply (IH soup' _ cs tags).
      * clear - Hcs Hfirst Eq.
        assert (Hq : q <> []).
        { apply (select_paths_not_nil (Soup.ByName "tr") tag). rewrite Eq. now left. }
        induction Hcs as [|t' c' ts' cs' Ht' _ IH']; constructor.
        -- rewrite Ht'. apply track_apart; [exact Hq|].
           inversion Hfirst; assumption.
        -- apply IH'. inversion Hfirst; assumption.
      * clear - Htags Hfirst Hother.
        induction Htags as [|c' tag0 cs' tags' Hc' _ IH']; constructor.
        -- rewrite Hother; [exact Hc'|]. inversion Hfirst; assumption.
        -- apply IH'. inversion Hfirst; assumption.
      * exact Hrest.
Qed.

(** ** Tables that do not lie inside one another *)

Lemma select_paths_NoDup (sel : Soup.Selector) (e : PageElement) :
  NoDup (Soup.select_paths sel e).
Proof.
  induction e as [s|n a cs IH] using PageElement_forest_ind; [constructor|].
  rewrite select_paths_Tag. generalize 0 as i.
  induction cs as [|c cs IHcs]; intros i; [constructor|].
  inversion IH as [|? ? Hc Hcs]; subst. specialize (IHcs Hcs).
  rewrite paths_from_cons.
  assert (Hlater : forall p, In p (paths_from sel (S i) cs) ->
                             exists j q, p = j :: q /\ S i <= j)
    by (intros p; apply paths_from_head).
  assert (Hbelow : NoDup (map (cons i) (Soup.select_paths sel c)
                          ++ paths_from sel (S i) cs)).
  { apply NoDup_app; [|apply IHcs|].
    - apply Finite.Injective_map_NoDup; [|exact Hc]. intros x y H. now injection H.
    - intros p Hp Hp'. apply in_map_iff in Hp as (q & <- & _).
      destruct (Hlater _ Hp') as (j & q' & [= -> _] & Hj). lia. }
  destruct (Soup.matches sel c); [|exact Hbelow].
  cbn [app]. constructor; [|exact Hbelow].
  rewrite in_app_iff. intros [Hp|Hp].
  - apply in_map_iff in Hp as (q & [= ->] & Hq).
    now apply select_paths_not_nil in Hq.
  - destruct (Hlater _ Hp) as (j & q' & [= -> _] & Hj). lia.
Qed.

Lemma not_apart (p p' : Soup.Path) :
  apart p p' = false -> (exists r, p' = p ++ r)%list \/ (exists r, p = p' ++ r)%list.
Proof.
  revert p'; induction p as [|i p IH]; intros p' H.
  - left. now exists p'.
  - destruct p' as [|j p']; [right; now exists (i :: p)|].
    simpl in H. destruct (Nat.eqb_spec i j) as [->|]; [|discriminate].
    destruct (IH p' H) as [[r ->]|[r ->]]; [left|right]; now exists r.
Qed.

Lemma subtree_app (p r : Soup.Path) (e : PageElement) :
  Soup.subtree (p ++ r)%list e =
  match Soup.subtree p e with
  | Some t => Soup.subtree r t
  | None => None
  end.
Proof.
  revert e; induction p as [|i p IH]; intros e; [reflexivity|].
  destruct e as [s|n a cs]; [reflexivity|]. cbn [app Soup.subtree].
  destruct (nth_error cs i); [apply IH | reflexivity].
Qed.

Lemma subtree_descendant (r : Soup.Path) (t t' : PageElement) :
  r <> [] -> Soup.subtree r t = Some t' -> In t' (Soup.descendants t).
Proof.
  revert t; induction r as [|i r IH]; intros t Hr H; [congruence|].
  destruct t as [s|n a cs]; [discriminate|]. cbn [Soup.subtree] in H.
  destruct (nth_error cs i) as [c|] eqn:Hi; [|discriminate].
  rewrite (descendants_Tag n a cs). unfold descendants_of.
  apply in_flat_map. exists c. split; [now apply nth_error_In in Hi|].
  destruct r as [|j r]; [injection H as <-; now left|].
  right. apply IH; [discriminate | exact H].
Qed.

Lemma select_paths_In (sel : Soup.Selector) (e : PageElement) (p : Soup.Path) :
  In p (Soup.select_paths sel e) ->
  exists t, Soup.subtree p e = Some t /\ In t (Soup.select sel e).
Proof.
  intros Hp. apply (in_map (fun p => Soup.subtree p e)) in Hp.
  rewrite select_paths_subtree in Hp.
  apply in_map_iff in Hp as (t & Ht & Hin). now exists t.
Qed.

Lemma pairwise_ordered {A : Type} (R : A -> A -> Prop) (l : list A) :
  NoDup l ->
  (forall x y, In x l -> In y l -> x <> y -> R x y) ->
  ForallOrdPairs R l.
Proof.
  induction l as [|a l IH]; intros Hnd HR; constructor.
  - inversion Hnd as [|? ? Hn _]; subst. apply Forall_forall. intros y Hy.
    apply HR; [now left | now right | intros ->; contradiction].
  - inversion Hnd; subst. apply IH; [assumption|].
    intros x y Hx Hy. apply HR; now right.
Qed.

Lemma Forall2_of_maps {A B : Type} (f : A -> option B) (l : list A) (l' : list B) :
  map f l = map Some l' -> Forall2 (fun x y => f x = Some y) l l'.
Proof.
  revert l'; induction l as [|x l IH]; intros [|y l'] H; try discriminate;
    constructor; injection H as H1 H2; auto.
Qed.

Lemma Forall2_same {A : Type} (l : list A) :
  Forall2 (fun t c => Some t = Some c) l l.
Proof. induction l; constructor; auto. Qed.

(** On a page none of whose report tables lies inside another, the
    selected tables are apart from one another. *)
Lemma tables_apart (soup : PageElement) :
  no_table_inside_another soup ->
  ForallOrdPairs (fun c c' => apart c c' = true)
    (Soup.select_paths (Soup.ByNameClass "table" "functionLayout") soup).
Proof.
  intros Hno. apply pairwise_ordered; [apply select_paths_NoDup|].
  assert (Hinside : forall p r,
    In p (Soup.select_paths (Soup.ByNameClass "table" "functionLayout") soup) ->
    In (p ++ r)%list
       (Soup.select_paths (Soup.ByNameClass "table" "functionLayout") soup) ->
    r = []).
  { intros p r Hp Hpr. destruct r as [|i r]; [reflexivity|].
    apply select_paths_In in Hp as (t & Ht & Hsel).
    apply select_paths_In in Hpr as (t' & Ht' & Hsel').
    rewrite subtree_app, Ht in Ht'.
    apply subtree_descendant in Ht'; [|discriminate].
    apply filter_In in Hsel' as [_ Hm].
    assert (Hin : In t' (Soup.select (Soup.ByNameClass "table" "functionLayout") t))
      by (apply filter_In; now split).
    rewrite (Hno t Hsel) in Hin. destruct Hin. }
  intros p p' Hp Hp' Hne.
  destruct (apart p p') eqn:E; [reflexivity|].
  destruct (not_apart p p' E) as [[r ->]|[r ->]].
  - rewrite (Hinside p r Hp Hp'), app_nil_r in Hne. congruence.
  - rewrite (Hinside p' r Hp' Hp), app_nil_r in Hne. congruence.
Qed.

(** On such a page the loop of the activity report is the loop on
    separate tables. *)
Lemma activity_loop_separate (soup : PageElement) :
  no_table_inside_another soup ->
  report_tables_loop soup Some
    (Soup.select_paths (Soup.ByNameClass "table" "functionLayout") soup) []
  = separate_tables_loop
      (Soup.select (Soup.ByNameClass "table" "functionLayout") soup) [].
Proof.
  intros Hno.
  apply (report_tables_loop_separate _ soup Some
           (Soup.select_paths (Soup.ByNameClass "table" "functionLayout") soup)).
  - apply Forall2_same.
  - apply Forall2_of_maps, select_paths_subtree.
  - now apply tables_apart.
Qed.

(** A report table in the title row of another is destroyed with that
    row, and the fetch raises when its turn comes. *)
Example table_in_title_row_raises :
  outcome (fetch_activity_report "ersp" Sample.no_headers
             (fun _ => sample_table_in_title_row)
             (Sample.response 200 "<html>report</html>"))
  = Raise AttributeError.
Proof. reflexivity. Qed.

(** A report table that holds the first row of the one around it loses
    that row to it, and is titled by its second row. *)
Example table_before_first_row_sections :
  outcome (fetch_activity_report "ersp" Sample.no_headers
             (fun _ => sample_table_before_first_row)
             (Sample.response 200 "<html>report</html>"))
  = Ok [[("T", [[("H", "v")]; [("H", "w")]])]; [("H", [])]].
Proof. reflexivity. Qed.

(** * Further properties *)

(** ** The classifier, outcome by outcome *)

Lemma login_div_has_loginApp : Substring "loginApp" login_div.
Proof.
  exists ("<div class=" ++ String PyStr.DQUOTE "login-main"
          ++ String PyStr.DQUOTE " ng-app=" ++ String PyStr.DQUOTE ""),
         (String PyStr.DQUOTE " ng-cloak>").
  reflexivity.
Qed.

Lemma Substring_trans (a b c : string) :
  Substring a b -> Substring b c -> Substring a c.
Proof.
  intros (p1 & q1 & ->) (p2 & q2 & ->).
  exists (p2 ++ p1), (q1 ++ q2).
  induction p2 as [|x p2 IH]; simpl.
  - induction p1 as [|y p1 IH1]; simpl.
    + induction a as [|z a IHa]; simpl; [reflexivity|]. now rewrite IHa.
    + now rewrite IH1.
  - now rewrite IH.
Qed.

(** The test on the login division never decides: a text holding the
    division holds loginApp. *)
Lemma login_page_iff_loginApp (r_text : string) :
  looks_like_login_page r_text = true <-> Substring "loginApp" r_text.
Proof.
  rewrite login_page_spec. split; [|now right].
  intros [H|H]; [|exact H].
  exact (Substring_trans _ _ _ login_div_has_loginApp H).
Qed.

Section ClassifierOutcomes.

Variable integration_name : string.
Variable format_headers : list (string * string) -> string.

Local Abbreviation classify := (_handle_response integration_name format_headers).

(** A body is returned exactly for status 200 without loginApp in the
    text first read, and it is the text read second. *)
Theorem classifier_success_iff (response : ClientResponse) (body : string) :
  outcome (classify response) = Ok body <->
  status response = 200%Z
  /\ ~ Substring "loginApp" (text response 0)
  /\ body = text response 1.
Proof.
  unfold outcome.
  destruct (classify_cases response)
    as [[Hs Hm]|[[Hs Hm]|[H4|[H3|(H2 & H4 & H3)]]]].
  - rewrite (classify_200_login _ _ response Hs Hm); simpl.
    split; [discriminate|]. intros (_ & Hn & _).
    elim Hn. now apply login_page_iff_loginApp.
  - rewrite (classify_200_report _ _ response Hs Hm); simpl. split.
    + intros [= <-]. repeat split; [exact Hs|].
      intros Hsub. apply login_page_iff_loginApp in Hsub. congruence.
    + intros (_ & _ & ->). reflexivity.
  - rewrite (classify_4xx _ _ response H4); simpl.
    split; [discriminate | intros (Hs & _); lia].
  - rewrite (classify_302 _ _ response H3); simpl.
    split; [discriminate | intros (Hs & _); lia].
  - rewrite (classify_other _ _ response H2 H4 H3); simpl.
    split; [discriminate | intros (Hs & _); contradiction].
Qed.

(** The two integration errors, each from its statuses only: the
    authentication error from a login page under status 200 or from 4xx,
    the API error from a status other than 200 and 4xx, with the name of
    the integration and with the status code unless the status is 302. *)
Theorem classifier_integration_errors (response : ClientResponse) (e : PyError) :
  outcome (classify response) = Raise e ->
  (forall message,
      e = IntegrationAuthError message ->
      (status response = 200%Z /\ Substring "loginApp" (text response 0))
      \/ (400 <= status response < 500)%Z)
  /\ (forall name message code,
        e = IntegrationAPIError name message code ->
        status response <> 200%Z
        /\ ~ (400 <= status response < 500)%Z
        /\ name = integration_name
        /\ code = if (status response =? 302)%Z then None
                  else Some (status response)).
Proof.
  unfold outcome.
  destruct (classify_cases response)
    as [[Hs Hm]|[[Hs Hm]|[H4|[H3|(H2 & H4 & H3)]]]].
  - rewrite (classify_200_login _ _ response Hs Hm); simpl. intros [= <-].
    apply login_page_iff_loginApp in Hm.
    split; [intros; left; now split | intros ? ? ? [=]].
  - rewrite (classify_200_report _ _ response Hs Hm); simpl. discriminate.
  - rewrite (classify_4xx _ _ response H4); simpl. intros [= <-].
    split; [intros; now right | intros ? ? ? [=]].
  - rewrite (classify_302 _ _ response H3); simpl. intros [= <-].
    split; [intros ? [=]|]. intros ? ? ? [= ? ? ?]; subst.
    rewrite H3. repeat split; lia.
  - rewrite (classify_other _ _ response H2 H4 H3); simpl. intros [= <-].
    split; [intros ? [=]|]. intros ? ? ? [= ? ? ?]; subst.
    destruct (Z.eqb_spec (status response) 302); [contradiction|].
    repeat split; assumption.
Qed.

End ClassifierOutcomes.

(** ** The fetchers *)

Section FetcherOutcomes.

Variable integration_name : string.
Variable format_headers : list (string * string) -> string.
Variable html_parser : string -> PageElement.

Local Abbreviation classify := (_handle_response integration_name format_headers).

Lemma outcome_bind_lift {A B : Type} (m : IO A) (f : A -> Result B) :
  outcome (bind m (fun a => lift (f a))) = rbind (outcome m) f.
Proof.
  unfold outcome, bind, lift. now destruct (m 0) as [[a|e] n].
Qed.

Lemma fetch_comfort_keepers_report_outcome (response : ClientResponse) :
  outcome (fetch_comfort_keepers_report integration_name format_headers
             html_parser response) =
  rbind (outcome (classify response))
        (fun body =>
           _parse_table_rows_to_list
             (Soup.select_one (Soup.ByNameClass "table" "functionLayout")
                              (html_parser body)) false).
Proof. apply outcome_bind_lift. Qed.

Lemma fetch_calls_clocks_log_outcome (response : ClientResponse) :
  outcome (fetch_calls_clocks_log integration_name format_headers
             html_parser response) =
  rbind (outcome (classify response))
        (fun body =>
           _parse_table_rows_to_list
             (Soup.select_one (Soup.ByNameId "table" "callLogListing")
                              (html_parser body)) false).
Proof. apply outcome_bind_lift. Qed.

Lemma fetch_activity_report_outcome (response : ClientResponse) :
  outcome (fetch_activity_report integration_name format_headers
             html_parser response) =
  rbind (outcome (classify response))
        (fun body =>
           report_tables_loop (html_parser body) Some
             (Soup.select_paths (Soup.ByNameClass "table" "functionLayout")
                                (html_parser body)) []).
Proof. apply outcome_bind_lift. Qed.

(** An error of the classifier is the error of each fetch, whatever the
    markup parser would give. *)
Theorem fetchers_raise_classifier_error (response : ClientResponse) (e : PyError) :
  outcome (classify response) = Raise e ->
  outcome (fetch_comfort_keepers_report integration_name format_headers
             html_parser response) = Raise e
  /\ outcome (fetch_activity_report integration_name format_headers
                html_parser response) = Raise e
  /\ outcome (fetch_calls_clocks_log integration_name format_headers
                html_parser response) = Raise e.
Proof.
  intros He.
  rewrite fetch_comfort_keepers_report_outcome, fetch_activity_report_outcome,
    fetch_calls_clocks_log_outcome, He.
  repeat split.
Qed.

(** A page without the table looked for: the activity report is the empty
    list, the two single-table reports raise [AttributeError]. *)
Theorem fetchers_without_table (response : ClientResponse) (body : string) :
  outcome (classify response) = Ok body ->
  (Soup.select (Soup.ByNameClass "table" "functionLayout") (html_parser body) = [] ->
   outcome (fetch_activity_report integration_name format_headers
              html_parser response) = Ok []
   /\ outcome (fetch_comfort_keepers_report integration_name format_headers
                 html_parser response) = Raise AttributeError)
  /\ (Soup.select (Soup.ByNameId "table" "callLogListing") (html_parser body) = [] ->
      outcome (fetch_calls_clocks_log integration_name format_headers
                 html_parser response) = Raise AttributeError).
Proof.
  intros Hb.
  rewrite fetch_comfort_keepers_report_outcome, fetch_activity_report_outcome,
    fetch_calls_clocks_log_outcome, Hb.
  cbn [rbind]. unfold Soup.select_one. split.
  - intros E. rewrite (proj2 (select_paths_nil _ _) E), E. split; reflexivity.
  - intros ->. reflexivity.
Qed.


End FetcherOutcomes.

(** ** Trimmed values *)

Lemma rstrip_cons_nonspace (c : ascii) (s : string) :
  PyStr.isspace c = false ->
  PyStr.rstrip (String c s) = String c (PyStr.rstrip s).
Proof.
  intros Hc. cbn [PyStr.rstrip]. rewrite Hc. now destruct (PyStr.rstrip s).
Qed.

Lemma rstrip_idem (s : string) : PyStr.rstrip (PyStr.rstrip s) = PyStr.rstrip s.
Proof.
  induction s as [|c s IH]; [reflexivity|].
  cbn [PyStr.rstrip]. destruct (PyStr.rstrip s) as [|c' r] eqn:E.
  - destruct (PyStr.isspace c) eqn:Ec; [reflexivity|].
    cbn [PyStr.rstrip]. now rewrite Ec.
  - cbn [PyStr.rstrip]. fold PyStr.rstrip.
    change (match PyStr.rstrip (String c' r) with
            | "" => if PyStr.isspace c then "" else String c ""
            | String a s0 => String c (String a s0)
            end = String c (String c' r)).
    now rewrite IH.
Qed.

Lemma lstrip_head (s : string) :
  PyStr.lstrip s = ""
  \/ exists c s', PyStr.lstrip s = String c s' /\ PyStr.isspace c = false.
Proof.
  induction s as [|c s IH]; [now left|].
  cbn [PyStr.lstrip]. destruct (PyStr.isspace c) eqn:Ec; [exact IH|].
  right. now exists c, s.
Qed.

Lemma strip_idem (s : string) : PyStr.strip (PyStr.strip s) = PyStr.strip s.
Proof.
  unfold PyStr.strip.
  destruct (lstrip_head s) as [->|(c & s' & -> & Hc)]; [reflexivity|].
  rewrite (rstrip_cons_nonspace c s' Hc).
  cbn [PyStr.lstrip]. rewrite Hc.
  rewrite (rstrip_cons_nonspace c _ Hc). now rewrite rstrip_idem.
Qed.

Lemma cell_value_trimmed (cells : list PageElement) (i : nat) :
  PyStr.strip (cell_value cells i) = cell_value cells i.
Proof.
  unfold cell_value, stripped_text.
  destruct (nth_error cells i); [apply strip_idem | reflexivity].
Qed.

Lemma setitem_In {V : Type} (k k' : string) (v v' : V) (d : Dict V) :
  In (k', v') (setitem k v d) -> v' = v \/ In (k', v') d.
Proof.
  induction d as [|[k0 v0] d IH]; simpl.
  - intros [[= <- <-]|[]]. now left.
  - destruct (String.eqb k k0); simpl.
    + intros [[= <- <-]|H]; auto.
    + intros [H|H]; auto. destruct (IH H); auto.
Qed.

Lemma row_record_values (headers : list string) (cells : list PageElement)
      (k v : string) :
  In (k, v) (row_record headers cells) ->
  exists i, i < List.length headers /\ v = cell_value cells i.
Proof.
  rewrite row_record_fold. unfold enumerate.
  assert (Hgen : forall hs n d,
    In (k, v) (fold_left
                 (fun row_data ih =>
                    setitem (snd ih) (cell_value cells (fst ih)) row_data)
                 (combine (seq n (List.length hs)) hs) d) ->
    In (k, v) d
    \/ exists i, n <= i < n + List.length hs /\ v = cell_value cells i).
  { induction hs as [|h hs IH]; intros n d; simpl; [now left|].
    intros H. destruct (IH _ _ H) as [Hd|(i & Hi & Hv)].
    - apply setitem_In in Hd as [->|Hd]; [|now left].
      right. exists n. split; [lia | reflexivity].
    - right. exists i. split; [lia | exact Hv]. }
  intros H. destruct (Hgen headers 0 [] H) as [[]|(i & Hi & Hv)].
  exists i. split; [lia | exact Hv].
Qed.

(** Every value of every record is trimmed: it is the trimmed text of a
    data cell of its row, or the empty string, and trimming it again
    changes nothing. *)
Theorem record_values_trimmed
    (table : PageElement) (include_blank_rows : bool) (rows : list (Dict string)) :
  _parse_table_rows_to_list (Some table) include_blank_rows = Ok rows ->
  forall r k v, In r rows -> In (k, v) r ->
    PyStr.strip v = v
    /\ exists tr, In tr (data_rows table)
                  /\ (v = ""
                      \/ exists cell, In cell (Soup.find_all ["td"] tr)
                                      /\ v = PyStr.strip (Soup.text cell)).
Proof.
  intros Hp r k v Hr Hkv. apply parse_inv in Hp as (hs & _ & ->).
  apply rows_loop_In in Hr as (tr & Htr & ->).
  apply row_record_values in Hkv as (i & _ & ->).
  split; [apply cell_value_trimmed|].
  exists tr. split; [exact Htr|]. unfold cell_value.
  destruct (nth_error (Soup.find_all ["td"] tr) i) as [c|] eqn:E; [|now left].
  right. exists c. split; [now apply nth_error_In in E | reflexivity].
Qed.

(** ** The order of the keys *)

Lemma keys_setitem_new {V : Type} (k : string) (v : V) (d : Dict V) :
  ~ In k (keys d) -> keys (setitem k v d) = (keys d ++ [k])%list.
Proof.
  induction d as [|[k' v'] d IH]; simpl; intros Hn; [reflexivity|].
  destruct (String.eqb_spec k k') as [->|Hk]; [elim Hn; now left|].
  simpl. f_equal. apply IH. intros H. apply Hn. now right.
Qed.

Lemma row_record_keys_ordered (headers : list string) (cells : list PageElement) :
  NoDup headers -> keys (row_record headers cells) = headers.
Proof.
  rewrite row_record_fold. unfold enumerate.
  assert (Hgen : forall hs n d,
    NoDup (keys d ++ hs) ->
    keys (fold_left
            (fun row_data ih =>
               setitem (snd ih) (cell_value cells (fst ih)) row_data)
            (combine (seq n (List.length hs)) hs) d)
    = (keys d ++ hs)%list).
  { induction hs as [|h hs IH]; intros n d Hnd; simpl.
    - now rewrite app_nil_r.
    - assert (Hh : ~ In h (keys d)).
      { intros Hin. apply NoDup_remove_2 in Hnd. apply Hnd.
        apply in_or_app. now left. }
      rewrite IH; rewrite (keys_setitem_new h _ d Hh).
      + now rewrite <- app_assoc.
      + now rewrite <- app_assoc. }
  intros Hnd. now rewrite (Hgen headers 0 [] Hnd).
Qed.


(** ** Rows kept and rows left out *)



(** ** When the engine raises *)

(** On a table the engine raises exactly when the table has no row, and
    the error is then [ValueError]. *)
Theorem engine_raises_iff_no_rows
    (table : PageElement) (include_blank_rows : bool) (e : PyError) :
  _parse_table_rows_to_list (Some table) include_blank_rows = Raise e <->
  Soup.find_all ["tr"] table = [] /\ e = ValueError.
Proof.
  split.
  - intros Hp. destruct (Soup.find_all ["tr"] table) as [|row rows] eqn:E.
    + unfold _parse_table_rows_to_list in Hp.
      rewrite (derive_headers_no_rows table E) in Hp. simpl in Hp.
      now injection Hp as <-.
    + destruct (table_headers_total table) as [hs Hhs]; [congruence|].
      rewrite (parse_with_headers table hs _ Hhs) in Hp. discriminate.
  - intros [E ->]. unfold _parse_table_rows_to_list.
    now rewrite (derive_headers_no_rows table E).
Qed.

(** ** What of a table the engine reads *)

Lemma parse_rows_only (t1 t2 : PageElement) (include_blank_rows : bool) :
  Soup.find_all ["tr"] t1 = Soup.find_all ["tr"] t2 ->
  _parse_table_rows_to_list (Some t1) include_blank_rows =
  _parse_table_rows_to_list (Some t2) include_blank_rows.
Proof.
  intros H.
  unfold _parse_table_rows_to_list, derive_headers, first_row_headers,
    generic_headers, Soup.find.
  now rewrite H.
Qed.

Lemma descendants_of_app (l1 l2 : list PageElement) :
  descendants_of (l1 ++ l2) = (descendants_of l1 ++ descendants_of l2)%list.
Proof. unfold descendants_of. apply flat_map_app. Qed.

Lemma find_all_wrapped (names : list string) (n : string)
      (a a' : Dict (list string))
      (groups : list (string * Dict (list string) * list PageElement)) :
  (forall g, In g groups -> existsb (String.eqb (fst (fst g))) names = false) ->
  Soup.find_all names (Tag n a (map wrap groups)) =
  Soup.find_all names (Tag n a' (flat_map snd groups)).
Proof.
  intros Hw. unfold Soup.find_all.
  rewrite (descendants_Tag n a), (descendants_Tag n a').
  induction groups as [|[[w b] rows] groups IH]; [reflexivity|].
  cbn [map flat_map]. rewrite descendants_of_app, filter_app.
  rewrite <- IH by (intros g Hg; apply Hw; now right).
  unfold descendants_of at 1. cbn [flat_map wrap fst snd app filter].
  fold (descendants_of (map wrap groups)).
  rewrite filter_app. cbn [Soup.has_name].
  pose proof (Hw (w, b, rows) (or_introl eq_refl)) as Hg. simpl in Hg.
  change (wrap (w, b, rows)) with (Tag w b rows). cbn [Soup.has_name].
  rewrite Hg. now rewrite (descendants_Tag w b rows).
Qed.

(** Tags that group rows, such as thead and tbody, and the attributes of
    the table make no difference: the records are those of the table with
    the rows directly under it. *)
Theorem row_wrappers_ignored (n : string) (a a' : Dict (list string))
    (groups : list (string * Dict (list string) * list PageElement))
    (include_blank_rows : bool) :
  (forall g, In g groups -> fst (fst g) <> "tr") ->
  _parse_table_rows_to_list (Some (Tag n a (map wrap groups))) include_blank_rows =
  _parse_table_rows_to_list (Some (Tag n a' (flat_map snd groups)))
                            include_blank_rows.
Proof.
  intros Hw. apply parse_rows_only, find_all_wrapped.
  intros g Hg. simpl. rewrite orb_false_r. apply String.eqb_neq. now apply Hw.
Qed.

(** ** Generic column names *)

Lemma to_uint_not_Nil (n : nat) : Nat.to_uint n <> Decimal.Nil.
Proof.
  pose proof (DecimalNat.Unsigned.to_of (Nat.to_uint n)) as H.
  rewrite DecimalNat.Unsigned.of_to in H. rewrite H.
  unfold Decimal.unorm. now destruct (Decimal.nzhead (Nat.to_uint n)).
Qed.

Lemma of_nat_inj (n m : nat) : PyStr.of_nat n = PyStr.of_nat m -> n = m.
Proof.
  unfold PyStr.of_nat. intros H. apply DecimalNat.Unsigned.to_uint_inj.
  apply (f_equal NilZero.uint_of_string) in H.
  rewrite !NilZero.usu in H by apply to_uint_not_Nil.
  now injection H.
Qed.

Lemma column_names_NoDup (n : nat) : NoDup (column_names n).
Proof.
  unfold column_names. apply Finite.Injective_map_NoDup; [|apply seq_NoDup].
  intros i j H. simpl in H. injection H as H. apply of_nat_inj in H. lia.
Qed.

Lemma column_names_nth (n i : nat) :
  i < n -> nth_error (column_names n) i = Some ("Column_" ++ PyStr.of_nat (i + 1)).
Proof.
  intros Hi. unfold column_names.
  rewrite nth_error_map.
  rewrite (nth_error_nth' _ 0) by (rewrite length_seq; exact Hi).
  now rewrite seq_nth.
Qed.

Lemma has_LF_app (a b : string) : has_LF (a ++ b) = has_LF a || has_LF b.
Proof.
  induction a as [|c a IH]; [reflexivity|].
  cbn [append]. now rewrite !has_LF_cons, IH, orb_assoc.
Qed.

Lemma digits_no_LF (d : Decimal.uint) :
  has_LF (NilEmpty.string_of_uint d) = false.
Proof.
  induction d; cbn [NilEmpty.string_of_uint];
    [reflexivity | rewrite has_LF_cons, IHd; reflexivity ..].
Qed.

Lemma of_nat_no_LF (n : nat) : has_LF (PyStr.of_nat n) = false.
Proof.
  unfold PyStr.of_nat, NilZero.string_of_uint.
  destruct (Nat.to_uint n) eqn:E; [reflexivity | rewrite <- E; apply digits_no_LF ..].
Qed.

Lemma patch_column_names (n : nat) :
  patch_headers (column_names n) = column_names n.
Proof.
  destruct (patch_headers_cases (column_names n))
    as [[(h & Hin & Hlf) _]|[_ E]]; [|exact E].
  unfold column_names in Hin. apply in_map_iff in Hin as (i & <- & _).
  rewrite has_LF_app, of_nat_no_LF in Hlf. discriminate.
Qed.

Lemma filter_length_le {A : Type} (p q : A -> bool) (l : list A) :
  (forall x, p x = true -> q x = true) ->
  List.length (filter p l) <= List.length (filter q l).
Proof.
  intros Hpq. induction l as [|x l IH]; simpl; [lia|].
  destruct (p x) eqn:Ep.
  - rewrite (Hpq x Ep). simpl. lia.
  - destruct (q x); simpl; lia.
Qed.

Lemma row_record_get_NoDup (headers : list string) (cells : list PageElement)
      (i : nat) (h : string) :
  NoDup headers -> nth_error headers i = Some h ->
  getitem h (row_record headers cells) = Some (cell_value cells i).
Proof.
  intros Hnd Hi. apply row_record_get; [exact Hi|].
  intros j Hj E. rewrite NoDup_nth_error in Hnd.
  assert (i = j); [|lia].
  apply Hnd; [apply nth_error_Some; congruence | congruence].
Qed.

(** With a first row without cells the columns are Column_1 .. Column_N
    and no data cell is lost: in every record the trimmed text of the
    [i]-th data cell of its row stands under Column_(i+1). *)
Theorem generic_columns_keep_every_cell
    (table header_row : PageElement) (include_blank_rows : bool)
    (rows : list (Dict string)) :
  Soup.find "tr" table = Some header_row ->
  Soup.find_all ["th"] header_row = [] ->
  Soup.find_all ["td"] header_row = [] ->
  _parse_table_rows_to_list (Some table) include_blank_rows = Ok rows ->
  exists N,
    table_headers table = Ok (column_names N)
    /\ forall r, In r rows ->
       keys r = column_names N
       /\ exists tr,
            In tr (data_rows table)
            /\ List.length (Soup.find_all ["td"] tr) <= N
            /\ forall i cell,
                 nth_error (Soup.find_all ["td"] tr) i = Some cell ->
                 getitem ("Column_" ++ PyStr.of_nat (i + 1)) r
                 = Some (PyStr.strip (Soup.text cell)).
Proof.
  intros Hrow Hth Htd Hp.
  assert (Hrows : Soup.find_all ["tr"] table <> []).
  { unfold Soup.find in Hrow. now destruct (Soup.find_all ["tr"] table). }
  destruct (generic_headers_spec table Hrows) as (N & Hd & Hmax & _).
  assert (Hhs : table_headers table = Ok (column_names N)).
  { unfold table_headers, derive_headers, first_row_headers.
    rewrite Hrow, Hth, Htd, Hd. simpl. now rewrite patch_column_names. }
  exists N. split; [exact Hhs|]. intros r Hr.
  rewrite (parse_with_headers table _ _ Hhs) in Hp. injection Hp as <-.
  apply rows_loop_In in Hr as (tr & Htr & ->).
  split; [apply row_record_keys_ordered, column_names_NoDup|].
  assert (Hlen : List.length (Soup.find_all ["td"] tr) <= N).
  { etransitivity; [|apply (Hmax tr)].
    - apply filter_length_le. intros [s|nm a cs]; simpl; [discriminate|].
      rewrite !orb_false_r. intros ->. reflexivity.
    - unfold data_rows in Htr.
      destruct (Soup.find_all ["tr"] table); [destruct Htr | now right]. }
  exists tr. split; [exact Htr|]. split; [exact Hlen|].
  intros i cell Hcell.
  assert (Hi : i < N).
  { assert (i < List.length (Soup.find_all ["td"] tr))
      by (apply nth_error_Some; congruence). lia. }
  rewrite (row_record_get_NoDup _ _ i _ (column_names_NoDup N)
             (column_names_nth N i Hi)).
  unfold cell_value. now rewrite Hcell.
Qed.

(** ** The activity report, table by table *)

Lemma has_row_after_title_spec (table : PageElement) :
  has_row_after_title table <->
  exists first_row rest,
    Soup.select_one (Soup.ByName "tr") table = Some first_row
    /\ Soup.decompose_first (Soup.ByName "tr") table = Some rest
    /\ Soup.find_all ["tr"] rest <> [].
Proof.
  pose proof (decompose_first_row table) as H.
  change (Soup.select_one (Soup.ByName "tr") table) with (Soup.find "tr" table) in *.
  unfold has_row_after_title. split.
  - intros (fr & Hfr & Hlen). rewrite Hfr in H.
    destruct H as (rest & Hrest & Hall). exists fr, rest.
    split; [exact Hfr|]. split; [exact Hrest|].
    rewrite Hall in Hlen. simpl in Hlen. rewrite length_app in Hlen.
    destruct (Soup.find_all ["tr"] rest); [simpl in Hlen; lia | discriminate].
  - intros (fr & rest & Hfr & Hrest & Hne). rewrite Hfr in H.
    destruct H as (rest' & Hrest' & Hall). exists fr. split; [exact Hfr|].
    assert (rest' = rest) by congruence. subst rest'.
    rewrite Hall. simpl. rewrite length_app.
    destruct (Soup.find_all ["tr"] rest); [congruence | simpl; lia].
Qed.

Lemma separate_tables_loop_inv (report_tables : list PageElement)
      (processed out : list (Dict (list (Dict string)))) :
  separate_tables_loop report_tables processed = Ok out ->
  exists sections,
    out = (processed ++ sections)%list
    /\ Forall2 section_of report_tables sections.
Proof.
  revert processed; induction report_tables as [|table tables IH];
    intros processed H.
  - simpl in H. injection H as <-. exists []. now rewrite app_nil_r.
  - cbn [separate_tables_loop] in H.
    destruct (Soup.select_one (Soup.ByName "tr") table) as [fr|] eqn:Hfr;
      [|discriminate].
    cbv zeta in H.
    destruct (Soup.decompose_first (Soup.ByName "tr") table) as [rest|] eqn:Hrest;
      [|discriminate].
    destruct (_parse_table_rows_to_list (Some rest) false) as [data|] eqn:Hp;
      [|discriminate].
    cbn [rbind setitem] in H. apply IH in H as (secs & -> & Hall).
    exists ([(PyStr.strip (Soup.text fr), data)] :: secs).
    split; [now rewrite <- app_assoc|].
    constructor; [|exact Hall]. now exists fr, rest, data.
Qed.

Lemma Forall2_In_left {A B : Type} (R : A -> B -> Prop) (l1 : list A)
      (l2 : list B) (x : A) :
  Forall2 R l1 l2 -> In x l1 -> exists y, In y l2 /\ R x y.
Proof.
  induction 1 as [|a b l1 l2 Hab _ IH]; intros Hin; [destruct Hin|].
  destruct Hin as [<-|Hin].
  - exists b. split; [now left | exact Hab].
  - destruct (IH Hin) as (y & Hy & Hxy). exists y. split; [now right | exact Hxy].
Qed.

Section ActivityReport.

Variable integration_name : string.
Variable format_headers : list (string * string) -> string.
Variable html_parser : string -> PageElement.

Local Abbreviation fetch :=
  (fetch_activity_report integration_name format_headers html_parser).
Local Abbreviation selected body :=
  (Soup.select (Soup.ByNameClass "table" "functionLayout") (html_parser body)).

(** Once the response is accepted, and on a page none of whose report
    tables lies inside another, the activity report is produced exactly
    when every selected table has a row after its first row and outside
    it; one table without such a row loses the whole report. *)
Theorem activity_report_succeeds_iff (response : ClientResponse) (body : string) :
  outcome (_handle_response integration_name format_headers response) = Ok body ->
  no_table_inside_another (html_parser body) ->
  (exists sections, outcome (fetch response) = Ok sections) <->
  (forall table, In table (selected body) -> has_row_after_title table).
Proof.
  intros Hb Hno. rewrite fetch_activity_report_outcome, Hb. cbn [rbind].
  rewrite (activity_loop_separate _ Hno). split.
  - intros [secs Hloop] table Ht.
    apply separate_tables_loop_inv in Hloop as (secs' & _ & Hall).
    apply has_row_after_title_spec.
    destruct (Forall2_In_left _ _ _ _ Hall Ht)
      as (sec & _ & fr & rest & data & Hfr & Hrest & Hp & _).
    exists fr, rest. split; [exact Hfr|]. split; [exact Hrest|].
    intros Hnil. unfold _parse_table_rows_to_list in Hp.
    rewrite (derive_headers_no_rows rest Hnil) in Hp. discriminate.
  - intros Hall.
    destruct (separate_tables_loop_sections (selected body) []) as (secs & Hloop & _).
    + intros table Ht. now apply has_row_after_title_spec, Hall.
    + exists secs. exact Hloop.
Qed.

(** On a page none of whose report tables lies inside another, a produced
    activity report has one section per selected table, in the order of
    the tables in the page. The section of a table is a dictionary of one
    key, the trimmed text of the table's first row, and holds the records
    of the table without that row, whose rows are those after the first
    row and outside it. *)
Theorem activity_report_sections (response : ClientResponse) (body : string)
    (sections : list (Dict (list (Dict string)))) :
  outcome (_handle_response integration_name format_headers response) = Ok body ->
  no_table_inside_another (html_parser body) ->
  outcome (fetch response) = Ok sections ->
  List.length sections = List.length (selected body)
  /\ forall i table,
       nth_error (selected body) i = Some table ->
       exists first_row rest table_data,
         Soup.find "tr" table = Some first_row
         /\ Soup.find_all ["tr"] table =
            first_row :: (Soup.find_all ["tr"] first_row
                          ++ Soup.find_all ["tr"] rest)%list
         /\ _parse_table_rows_to_list (Some rest) false = Ok table_data
         /\ nth_error sections i =
            Some [(PyStr.strip (Soup.text first_row), table_data)].
Proof.
  intros Hb Hno. rewrite fetch_activity_report_outcome, Hb. cbn [rbind].
  rewrite (activity_loop_separate _ Hno).
  intros Hloop. apply separate_tables_loop_inv in Hloop as (secs & -> & Hall).
  simpl. split; [symmetry; exact (Forall2_length Hall)|].
  induction Hall as [|table sec tables secs Hsec Hall IH]; intros i t Hi.
  - now destruct i.
  - destruct i as [|i]; simpl in Hi |- *; [|now apply IH].
    injection Hi as <-.
    destruct Hsec as (fr & rest & data & Hfr & Hrest & Hp & ->).
    pose proof (decompose_first_row table) as Hrow. rewrite Hfr in Hrow.
    destruct Hrow as (rest' & Hrest' & Hrows).
    assert (rest' = rest) by congruence. subst rest'.
    exists fr, rest, data. repeat split; assumption.
Qed.

End ActivityReport.

(** ** Dates *)

(** For every date, the week start given with it is the Monday on or
    before it, at most six days back, and the subtraction never leaves the
    range of dates. *)
Theorem week_start_is_monday (strftime : PyDate.date -> string -> string)
    (today : PyDate.date) :
  PyDate.valid today ->
  exists monday,
    _get_date_and_week_start strftime today =
      Some (strftime today "%m/%d/%Y", strftime monday "%m/%d/%Y")
    /\ PyDate.valid monday
    /\ PyDate.weekday monday = 0%Z
    /\ (monday <= today < monday + 7)%Z.
Proof.
  unfold PyDate.valid, PyDate.MAXORD. intros Hv.
  unfold _get_date_and_week_start, PyDate.sub_days, PyDate.weekday, PyDate.MAXORD.
  pose proof (Z.mod_pos_bound (today + 6) 7 ltac:(lia)) as Hw.
  pose proof (Z.div_mod (today + 6) 7 ltac:(lia)) as Hdm.
  set (w := ((today + 6) mod 7)%Z) in *.
  set (q := ((today + 6) / 7)%Z) in *.
  assert (Hq : (1 <= q)%Z) by lia.
  exists (today - w)%Z.
  destruct (Z.leb_spec 1 (today - w)); [|lia].
  destruct (Z.leb_spec (today - w) 3652059); [|lia].
  simpl. split; [reflexivity|]. split; [lia|]. split; [|lia].
  replace (today - w + 6)%Z with (q * 7)%Z by lia.
  apply Z_mod_mult.
Qed.

(** For a month from 1 to 12 the quarter is the month's third of the
    year counted up, from 1 to 4, and the year and the month are given
    back as they are. *)
Theorem quarter_of_month (now : PyDate.datetime) :
  (1 <= PyDate.month now <= 12)%Z ->
  exists quarter,
    _get_current_year_month_quarter now
    = (PyDate.year now, PyDate.month now, quarter)
    /\ quarter = ((PyDate.month now + 2) / 3)%Z
    /\ (1 <= quarter <= 4)%Z
    /\ (3 * quarter - 2 <= PyDate.month now <= 3 * quarter)%Z.
Proof.
  destruct now as [y m]. simpl. intros Hm.
  assert (Hcases : (m = 1 \/ m = 2 \/ m = 3 \/ m = 4 \/ m = 5 \/ m = 6 \/ m = 7
                    \/ m = 8 \/ m = 9 \/ m = 10 \/ m = 11 \/ m = 12)%Z) by lia.
  exists ((m + 2) / 3)%Z.
  repeat (destruct Hcases as [->|Hcases]); try subst m;
    (repeat split; try reflexivity; vm_compute; discriminate).
Qed.


(** ** The further properties at work on sample inputs *)

Lemma classifier_success_witness :
  outcome (_handle_response "ersp" Sample.no_headers (Sample.response 200 "report"))
  = Ok "report".
Proof.
  apply (classifier_success_iff "ersp" Sample.no_headers
           (Sample.response 200 "report") "report").
  split; [reflexivity|]. split; [|reflexivity].
  intros H. apply contains_spec in H. discriminate.
Defined.

Lemma classifier_integration_errors_witness :
  outcome (_handle_response "ersp" Sample.no_headers (Sample.response 500 "down"))
  = Raise (IntegrationAPIError "ersp" "ersp: 500 - {}" (Some 500%Z))
  /\ status (Sample.response 500 "down") <> 200%Z.
Proof.
  split; [reflexivity|].
  destruct (classifier_integration_errors "ersp" Sample.no_headers
              (Sample.response 500 "down") _ eq_refl) as [_ Hapi].
  exact (proj1 (Hapi _ _ _ eq_refl)).
Defined.

Lemma fetchers_raise_classifier_error_witness :
  outcome (_handle_response "ersp" Sample.no_headers (Sample.response 404 "gone"))
  = Raise (IntegrationAuthError ("ERSP: 404 -  " ++ String PyStr.LF "gone"))
  /\ outcome (fetch_activity_report "ersp" Sample.no_headers
                (fun _ => Sample.document [Sample.jane "8"])
                (Sample.response 404 "gone"))
     = Raise (IntegrationAuthError ("ERSP: 404 -  " ++ String PyStr.LF "gone")).
Proof.
  split; [reflexivity|].
  exact (proj1 (proj2
           (fetchers_raise_classifier_error "ersp" Sample.no_headers
              (fun _ => Sample.document [Sample.jane "8"])
              (Sample.response 404 "gone") _ eq_refl))).
Defined.

Lemma fetchers_without_table_witness :
  outcome (fetch_activity_report "ersp" Sample.no_headers
             (fun _ => Sample.document []) (Sample.response 200 "<html></html>"))
  = Ok []
  /\ outcome (fetch_comfort_keepers_report "ersp" Sample.no_headers
                (fun _ => Sample.document []) (Sample.response 200 "<html></html>"))
     = Raise AttributeError.
Proof.
  destruct (fetchers_without_table "ersp" Sample.no_headers
              (fun _ => Sample.document []) (Sample.response 200 "<html></html>")
              "<html></html>" eq_refl) as [H _].
  exact (H eq_refl).
Defined.

Lemma engine_raises_witness :
  _parse_table_rows_to_list (Some Sample.no_rows) true = Raise ValueError.
Proof.
  apply (engine_raises_iff_no_rows Sample.no_rows true ValueError).
  split; reflexivity.
Defined.



Lemma record_values_trimmed_witness :
  PyStr.strip "b" = "b".
Proof.
  apply (record_values_trimmed sample_no_header_cells false
           [[("Column_1", "a"); ("Column_2", "b")]] eq_refl
           [("Column_1", "a"); ("Column_2", "b")] "Column_2" "b").
  - now left.
  - right. now left.
Defined.

Lemma generic_columns_witness :
  exists N,
    table_headers sample_no_header_cells = Ok (column_names N)
    /\ keys [("Column_1", "a"); ("Column_2", "b")] = column_names N.
Proof.
  destruct (generic_columns_keep_every_cell sample_no_header_cells
              (Sample.tr []) false [[("Column_1", "a"); ("Column_2", "b")]]
              eq_refl eq_refl eq_refl eq_refl) as (N & Hhs & Hall).
  exists N. split; [exact Hhs|].
  exact (proj1 (Hall _ (or_introl eq_refl))).
Defined.

Lemma row_wrappers_witness :
  _parse_table_rows_to_list
    (Some (Tag "table" [("class", ["functionLayout"])]
             (map wrap [("thead", [], [Sample.tr [Sample.th "A"]]);
                        ("tbody", [], [Sample.tr [Sample.td "x"]])]))) false
  = _parse_table_rows_to_list
      (Some (Tag "table" [] [Sample.tr [Sample.th "A"]; Sample.tr [Sample.td "x"]]))
      false.
Proof.
  apply (row_wrappers_ignored "table" [("class", ["functionLayout"])] []
           [("thead", [], [Sample.tr [Sample.th "A"]]);
            ("tbody", [], [Sample.tr [Sample.td "x"]])] false).
  intros g [<-|[<-|[]]]; discriminate.
Defined.

Lemma activity_report_succeeds_witness :
  no_table_inside_another (Sample.document [Sample.jane "8"])
  /\ exists sections,
       outcome (fetch_activity_report "ersp" Sample.no_headers
                  (fun _ => Sample.document [Sample.jane "8"])
                  (Sample.response 200 "<html>report</html>"))
       = Ok sections.
Proof.
  assert (Hno : no_table_inside_another (Sample.document [Sample.jane "8"]))
    by (intros table [<-|[]]; reflexivity).
  split; [exact Hno|].
  apply (activity_report_succeeds_iff "ersp" Sample.no_headers
           (fun _ => Sample.document [Sample.jane "8"])
           (Sample.response 200 "<html>report</html>") "<html>report</html>"
           eq_refl Hno).
  intros table [<-|[]].
  exists (Sample.tr [Sample.td " Jane Doe "]). split; [reflexivity|].
  simpl. lia.
Defined.

Lemma activity_report_sections_witness :
  no_table_inside_another (Sample.document [Sample.jane "8"])
  /\ List.length [[("Jane Doe", [[("Day", "Mon"); ("Hours", "8")]])]]
     = List.length (Soup.select (Soup.ByNameClass "table" "functionLayout")
                                (Sample.document [Sample.jane "8"])).
Proof.
  assert (Hno : no_table_inside_another (Sample.document [Sample.jane "8"]))
    by (intros table [<-|[]]; reflexivity).
  split; [exact Hno|].
  exact (proj1 (activity_report_sections "ersp" Sample.no_headers
                  (fun _ => Sample.document [Sample.jane "8"])
                  (Sample.response 200 "<html>report</html>")
                  "<html>report</html>" _ eq_refl Hno eq_refl)).
Defined.

Lemma week_start_witness :
  PyDate.valid 739561%Z
  /\ exists monday,
       _get_date_and_week_start sample_strftime 739561%Z
       = Some (sample_strftime 739561%Z "%m/%d/%Y",
               sample_strftime monday "%m/%d/%Y")
       /\ PyDate.weekday monday = 0%Z.
Proof.
  assert (Hv : PyDate.valid 739561%Z) by (unfold PyDate.valid, PyDate.MAXORD; lia).
  split; [exact Hv|].
  destruct (week_start_is_monday sample_strftime 739561%Z Hv)
    as (monday & Hres & _ & Hmon & _).
  exists monday. split; [exact Hres | exact Hmon].
Defined.

Lemma quarter_of_month_witness :
  (1 <= 11 <= 12)%Z
  /\ _get_current_year_month_quarter {| PyDate.year := 2025; PyDate.month := 11 |}
     = (2025, 11, 4)%Z.
Proof.
  assert (Hm : (1 <= 11 <= 12)%Z) by lia.
  split; [exact Hm|].
  destruct (quarter_of_month {| PyDate.year := 2025; PyDate.month := 11 |} Hm)
    as (q & Hres & Hq & _).
  rewrite Hres, Hq. reflexivity.
Defined.

